(** * DATLLM ASI-Arch: the propose / score / reduce / record cycle

    A shallow embedding of the Python sources

      - [pipeline/analyze.py]     (ArchitectureAnalyzer.analyze)
      - [pipeline/evolve.py]      (ArchitectureEvolver.evolve)
      - [pipeline/eval.py]        (ArchitectureEvaluator.evaluate)
      - [database/mongodb_api.py] (DatabaseAPI.sample_parent, save_result)
      - [cognition_base/rag_service.py] (RAGService.query)

    Python [float] is IEEE binary64 and is modelled by Rocq's primitive
    floats, whose operations are the same hardware operations; Python [int]
    is [Z]; a [dict] is an insertion-ordered association list; objects that
    the code mutates live in a heap of dicts addressed by references; the
    [random] module is a generator state threaded through the calls. *)

From stdpp Require Import base list strings pretty.
From Stdlib Require Import ZArith Zpower Lia Floats Ascii.

Set Warnings "-inexact-float,-register-all".
Local Open Scope Z_scope.

(** ** Exact values of doubles *)

Module PyFloat.

(** A number that is not a NaN denotes an extended integer once it is
    scaled by [2^1074]: every finite double is an integer multiple of
    [2^emin] with [emin = -1074]. *)
Inductive ext : Type :=
  | NInf
  | Fin (z : Z)
  | PInf.

Definition ext_compare (a b : ext) : comparison :=
  match a, b with
  | NInf, NInf => Eq
  | NInf, _ => Lt
  | _, NInf => Gt
  | PInf, PInf => Eq
  | PInf, _ => Gt
  | _, PInf => Lt
  | Fin x, Fin y => Z.compare x y
  end.

Definition ext_ltb (a b : ext) : bool :=
  match ext_compare a b with Lt => true | _ => false end.

Definition scale : Z := 2 ^ 1074.

Definition SFscaled (x : spec_float) : option ext :=
  match x with
  | S754_nan => None
  | S754_zero _ => Some (Fin 0)
  | S754_infinity s => Some (if s then NInf else PInf)
  | S754_finite s m e => Some (Fin (cond_Zopp s (Z.pos m * 2 ^ (e - emin))))
  end.

(** The exact value of a double, [None] for a NaN. *)
Definition scaled (f : float) : option ext := SFscaled (Prim2SF f).

(** The value of a Python [int] on the same scale. *)
Definition scaled_int (z : Z) : ext := Fin (z * scale).

(** [int(f)]: truncation toward zero; Python raises [ValueError] on a NaN
    and [OverflowError] on an infinity, both [None] here. *)
Definition SFtrunc (x : spec_float) : option Z :=
  match x with
  | S754_nan | S754_infinity _ => None
  | S754_zero _ => Some 0
  | S754_finite s m e =>
      Some (cond_Zopp s (if 0 <=? e then Z.pos m * 2 ^ e
                         else Z.pos m / 2 ^ (- e)))
  end.

Definition trunc (f : float) : option Z := SFtrunc (Prim2SF f).

(** [float(z)] for an [int] [z]: the nearest double, ties to even;
    Python raises [OverflowError] when the result would not be finite. *)
Definition of_int (z : Z) : option float :=
  let x := binary_normalize prec emax z 0 false in
  match x with
  | S754_zero _ | S754_finite _ _ _ => Some (SF2Prim x)
  | S754_infinity _ | S754_nan => None
  end.

Definition ext_leb (a b : ext) : bool :=
  match ext_compare a b with Gt => false | _ => true end.

(** [min(a, b)] and [max(a, b)] on two floats, as the builtins decide:
    the first argument stays unless the second is strictly beyond it. *)
Definition min2 (a b : float) : float := if (b <? a)%float then b else a.
Definition max2 (a b : float) : float := if (a <? b)%float then b else a.

(** The two classes of doubles that matter for the arithmetic below. *)
Definition SFis_nan (x : spec_float) : bool :=
  match x with S754_nan => true | _ => false end.

Definition SFis_finite (x : spec_float) : bool :=
  match x with S754_zero _ | S754_finite _ _ _ => true | _ => false end.

End PyFloat.

(** ** Python values, numbers and dicts *)

Module Py.

(** A value as [json.load] produces it and as the pipeline holds it. *)
Inductive value : Type :=
  | VNone
  | VBool (b : bool)
  | VInt (z : Z)
  | VFloat (f : float)
  | VStr (s : string)
  | VList (l : list value)
  | VDict (d : list (string * value)).

(** A [dict] with string keys, in insertion order, keys unique. *)
Definition dict : Type := list (string * value).

(** The exceptions the modelled code can meet; [BadReference] is no Python
    exception: it marks a reference outside the heap, which no Python
    program holds. *)
Inductive exn : Type :=
  | TypeError
  | ValueError
  | OverflowError
  | ZeroDivisionError
  | AttributeError
  | JSONDecodeError
  | RequestException
  | HTTPError
  | BadReference.

Inductive result (A : Type) : Type :=
  | Ok (a : A)
  | Raise (e : exn).
Arguments Ok {A} a.
Arguments Raise {A} e.

Definition rbind {A B : Type} (r : result A) (k : A -> result B) : result B :=
  match r with
  | Ok a => k a
  | Raise e => Raise e
  end.

(** *** dict *)

(** [d.get(key)], [None] when the key is absent. *)
Fixpoint dict_get (d : dict) (key : string) : option value :=
  match d with
  | [] => None
  | (k, v) :: d' => if String.eqb k key then Some v else dict_get d' key
  end.

(** [key in d] *)
Definition dict_contains (d : dict) (key : string) : bool :=
  match dict_get d key with Some _ => true | None => false end.

(** [d[key] = v]: overwrites in place, or appends a new key. *)
Fixpoint dict_set (d : dict) (key : string) (v : value) : dict :=
  match d with
  | [] => [(key, v)]
  | (k, w) :: d' =>
      if String.eqb k key then (k, v) :: d' else (k, w) :: dict_set d' key v
  end.

(** [d.get(key, default)] *)
Definition dict_get_default (d : dict) (key : string) (default : value) : value :=
  match dict_get d key with Some v => v | None => default end.

(** *** numbers *)

(** The operand of an arithmetic operation: [int] or [float]; [bool] is a
    subclass of [int] and enters arithmetic as 0 or 1. *)
Inductive num : Type :=
  | NInt (z : Z)
  | NFloat (f : float).

Definition as_num (v : value) : option num :=
  match v with
  | VBool b => Some (NInt (Z.b2z b))
  | VInt z => Some (NInt z)
  | VFloat f => Some (NFloat f)
  | _ => None
  end.

(** [isinstance(v, (int, float))] *)
Definition isinstance_int_float (v : value) : bool :=
  match v with
  | VBool _ | VInt _ | VFloat _ => true
  | _ => false
  end.

(** The exact value of a number, [None] for a NaN. *)
Definition num_val (n : num) : option PyFloat.ext :=
  match n with
  | NInt z => Some (PyFloat.scaled_int z)
  | NFloat f => PyFloat.scaled f
  end.

(** [x < y]: two ints compare as integers, two floats as the hardware
    compares them, and an int against a float by exact value (CPython's
    [float_richcompare] does not round the int); a NaN compares false. *)
Definition num_ltb (x y : num) : bool :=
  match x, y with
  | NInt a, NInt b => a <? b
  | NFloat f, NFloat g => (f <? g)%float
  | _, _ =>
      match num_val x, num_val y with
      | Some a, Some b => PyFloat.ext_ltb a b
      | _, _ => false
      end
  end.

(** [x > y] *)
Definition num_gtb (x y : num) : bool := num_ltb y x.

(** [min(a, b)] and [max(a, b)] of two positional arguments: the first is
    kept unless the second is strictly smaller (larger). *)
Definition py_min (a b : num) : num := if num_ltb b a then b else a.
Definition py_max (a b : num) : num := if num_gtb b a then b else a.

(** [float(x)] *)
Definition num_float (x : num) : result float :=
  match x with
  | NFloat f => Ok f
  | NInt z =>
      match PyFloat.of_int z with
      | Some f => Ok f
      | None => Raise OverflowError
      end
  end.

(** [x + y], [x * y], [x / y]: integer arithmetic on two ints (true
    division converts both), else both operands are converted to float. *)
Definition num_add (x y : num) : result num :=
  match x, y with
  | NInt a, NInt b => Ok (NInt (a + b))
  | _, _ =>
      rbind (num_float x) (fun f =>
      rbind (num_float y) (fun g => Ok (NFloat (f + g)%float)))
  end.

Definition num_mul (x y : num) : result num :=
  match x, y with
  | NInt a, NInt b => Ok (NInt (a * b))
  | _, _ =>
      rbind (num_float x) (fun f =>
      rbind (num_float y) (fun g => Ok (NFloat (f * g)%float)))
  end.

Definition num_is_zero (x : num) : bool :=
  match x with
  | NInt z => z =? 0
  | NFloat f => (f =? 0)%float
  end.

(** For two ints CPython returns the correctly rounded quotient; that is
    the quotient of the converted operands when both convert exactly, as
    the ints below [2^53] do. *)
Definition num_truediv (x y : num) : result num :=
  if num_is_zero y then Raise ZeroDivisionError
  else
    rbind (num_float x) (fun f =>
    rbind (num_float y) (fun g => Ok (NFloat (f / g)%float))).

(** [int(x)] *)
Definition num_int (x : num) : result Z :=
  match x with
  | NInt z => Ok z
  | NFloat f =>
      match PyFloat.trunc f with
      | Some z => Ok z
      | None => Raise (if is_nan f then ValueError else OverflowError)
      end
  end.

(** Truthiness, as [raw or 'fallback'] tests it. *)
Definition truthy (v : value) : bool :=
  match v with
  | VNone => false
  | VBool b => b
  | VInt z => negb (z =? 0)
  | VFloat f => negb (f =? 0)%float
  | VStr s => negb (String.eqb s "")
  | VList l => match l with [] => false | _ => true end
  | VDict d => match d with [] => false | _ => true end
  end.

End Py.

(** ** pipeline/eval.py: the container of the three scores *)

Record EvaluationResult : Type := mkEvaluationResult {
  performance : float;
  novelty : float;
  complexity : float;
  raw_response : Py.value;
}.

(** ** pipeline/analyze.py *)

Module Analyze.

Record AnalysisReport : Type := mkAnalysisReport {
  architecture : Py.dict;
  evaluation : EvaluationResult;
  composite_score : float;
  summary : string;
}.

(** The weighted sum of line 34, evaluated left to right in binary64. *)
Definition weighted (ev : EvaluationResult) : float :=
  (0.6 * performance ev + 0.3 * novelty ev - 0.1 * complexity ev)%float.

Section Analyzer.

(** The two formatting primitives of the f-string of lines 40-46 are
    Python's own: [format(x, '.2f')] and [str(v)]. *)
Variable format_2f : float -> string.
Variable py_str : Py.value -> string.

Definition analyze (arch : Py.dict) (ev : EvaluationResult) : AnalysisReport :=
  let composite := weighted ev in
  let composite := PyFloat.max2 0 (PyFloat.min2 1 composite) in
  let summary :=
    ("Architecture " +:+ py_str (Py.dict_get_default arch "id" (Py.VStr "unknown"))
     +:+ " achieved a performance score of " +:+ format_2f (performance ev)
     +:+ ", novelty score of " +:+ format_2f (novelty ev)
     +:+ " and complexity score of " +:+ format_2f (complexity ev)
     +:+ ". Composite score: " +:+ format_2f composite +:+ ".")%string in
  mkAnalysisReport arch ev composite summary.

End Analyzer.

(** The clamp of the specification: [lo] at or below [lo], [hi] at or
    above [hi], the argument itself in between. *)
Definition clamp (x lo hi : float) : float :=
  if (x <=? lo)%float then lo else if (hi <=? x)%float then hi else x.

End Analyze.

(** ** database/mongodb_api.py *)

Module Database.
Import Py.

(** The results file: a JSON array of objects, read whole by [_load_all]
    and written whole by [_save_all]. *)
Definition history : Type := list dict.

(** [a > b] on stored values: numbers by value, strings by code points;
    any other pair is a [TypeError] here (CPython also orders two lists,
    which the store never holds as a score). *)
Definition py_gt (a b : value) : result bool :=
  match as_num a, as_num b with
  | Some x, Some y => Ok (num_gtb x y)
  | _, _ =>
      match a, b with
      | VStr s, VStr t => Ok (String.ltb t s)
      | _, _ => Raise TypeError
      end
  end.

(** The key of line 63: [x.get('composite_score', 0)]. *)
Definition key (x : dict) : value := dict_get_default x "composite_score" (VInt 0).

(** The loop of the builtin [max(iterable, key=...)]: the running maximum
    is replaced only by an item whose key is strictly greater. *)
Fixpoint max_loop (maxitem : dict) (maxval : value) (rest : list dict) : result dict :=
  match rest with
  | [] => Ok maxitem
  | item :: rest' =>
      let val := key item in
      rbind (py_gt val maxval) (fun greater =>
        if greater then max_loop item val rest'
        else max_loop maxitem maxval rest')
  end.

Definition max_by_key (data : list dict) : result dict :=
  match data with
  | [] => Raise ValueError
  | x :: rest => max_loop x (key x) rest
  end.

(** The baseline of lines 56-61 and the default of lines 65-69. *)
Definition baseline : dict :=
  [("id", VStr "baseline"); ("hidden_size", VInt 512);
   ("num_layers", VInt 6); ("num_heads", VInt 8)].

Definition default_architecture : dict :=
  [("hidden_size", VInt 512); ("num_layers", VInt 6); ("num_heads", VInt 8)].

Definition sample_parent (data : history) : result value :=
  match data with
  | [] => Ok (VDict baseline)
  | _ :: _ =>
      rbind (max_by_key data) (fun best =>
        Ok (dict_get_default best "architecture" (VDict default_architecture)))
  end.

(** [save_result]: the entry of lines 74-84 appended to the history. *)
Definition entry_of (report : Analyze.AnalysisReport) : dict :=
  let ev := Analyze.evaluation report in
  [("architecture", VDict (Analyze.architecture report));
   ("evaluation",
     VDict [("performance", VFloat (performance ev));
            ("novelty", VFloat (novelty ev));
            ("complexity", VFloat (complexity ev));
            ("raw_response", raw_response ev)]);
   ("composite_score", VFloat (Analyze.composite_score report));
   ("summary", VStr (Analyze.summary report))].

Definition save_result (report : Analyze.AnalysisReport) (data : history) : history :=
  data ++ [entry_of report].

(** The rank of a stored record: the exact value of its composite score,
    0 for a record without one; [None] when the stored score is not a
    number or is a NaN. *)
Definition rank (x : dict) : option PyFloat.ext :=
  match dict_get x "composite_score" with
  | Some v =>
      match as_num v with
      | Some n => num_val n
      | None => None
      end
  | None => Some (PyFloat.scaled_int 0)
  end.

(** [b], at index [i], is the first record of [l] of maximal rank. *)
Definition first_max (l : list dict) (i : nat) (b : dict) : Prop :=
  l !! i = Some b /\
  forall (j : nat) (e : dict) (re rb : PyFloat.ext),
    l !! j = Some e -> rank e = Some re -> rank b = Some rb ->
    PyFloat.ext_leb re rb = true /\
    ((j < i)%nat -> PyFloat.ext_ltb re rb = true).

(** The store's reading of a record without a score: the same record
    with an explicit [composite_score] of 0. *)
Definition with_zero_score (x : dict) : dict :=
  if dict_contains x "composite_score" then x
  else dict_set x "composite_score" (VInt 0).

End Database.

(** ** The [random] module *)

(** The generator is a state [G] that every draw advances:
    [random.gauss(mu, sigma)], [random.randint(a, b)], [random.random()]. *)
Class RandomModule (G : Type) : Type := {
  gauss : float -> float -> G -> float * G;
  randint : Z -> Z -> G -> Z * G;
  random : G -> float * G;
}.

(** ** pipeline/evolve.py *)

Module Evolve.
Import Py.

Record ArchitectureEvolver : Type := mkArchitectureEvolver {
  noise_scale : float;
}.

(** [ArchitectureEvolver()] *)
Definition default_evolver : ArchitectureEvolver := mkArchitectureEvolver 0.1.

(** The table of lines 48-52, in the order the loop visits it. *)
Definition numeric_keys : list (string * (Z * Z)) :=
  [("hidden_size", (32, 2048)); ("num_layers", (1, 48)); ("num_heads", (1, 32))].

(** [str.zfill]-style padding and the format [f"{r:07d}"]. *)
Fixpoint zeros (n : nat) (s : string) : string :=
  match n with
  | O => s
  | S n' => String "0"%char (zeros n' s)
  end.

Definition zfill (width : nat) (s : string) : string :=
  zeros (width - String.length s) s.

Definition format_07d (z : Z) : string :=
  if z <? 0 then String "-"%char (zfill 6 (pretty (Z.to_N (- z))))
  else zfill 7 (pretty (Z.to_N z)).

(** Line 57 after the draw: [int(g * range_size)]. *)
Definition noise_of (g : float) (range_size : Z) : result Z :=
  rbind (num_mul (NFloat g) (NInt range_size)) num_int.

(** Line 63: [int((low + high) / 2)]. *)
Definition midpoint (low high : Z) : result Z :=
  rbind (num_truediv (NInt (low + high)) (NInt 2)) num_int.

Section WithRandom.

Context {G : Type} `{RandomModule G}.

(** The dicts of the program live in a heap; a reference is an index. *)
Definition ref : Type := nat.

Record world : Type := mkWorld {
  heap : list dict;
  rng : G;
}.

Definition M (A : Type) : Type := world -> result (A * world).

Definition ret {A : Type} (a : A) : M A := fun w => Ok (a, w).

Definition bind {A B : Type} (c : M A) (k : A -> M B) : M B :=
  fun w =>
    match c w with
    | Ok (a, w') => k a w'
    | Raise e => Raise e
    end.

Definition lift {A : Type} (r : result A) : M A :=
  fun w =>
    match r with
    | Ok a => Ok (a, w)
    | Raise e => Raise e
    end.

Definition draw {A : Type} (f : G -> A * G) : M A :=
  fun w => let (a, g) := f (rng w) in Ok (a, mkWorld (heap w) g).

(** Reading the dict behind a reference. *)
Definition deref (r : ref) : M dict :=
  fun w =>
    match heap w !! r with
    | Some d => Ok (d, w)
    | None => Raise BadReference
    end.

(** [r[key] = v]: the dict behind [r] is updated in place. *)
Definition setitem (r : ref) (key : string) (v : value) : M unit :=
  fun w =>
    match heap w !! r with
    | Some d => Ok (tt, mkWorld (<[r := dict_set d key v]> (heap w)) (rng w))
    | None => Raise BadReference
    end.

(** [copy.deepcopy(r)]: a new dict with the same content (the values of a
    dict are held by value, so the copy shares nothing with [r]). *)
Definition deepcopy (r : ref) : M ref :=
  fun w =>
    match heap w !! r with
    | Some d => Ok (length (heap w), mkWorld (heap w ++ [d]) (rng w))
    | None => Raise BadReference
    end.

Local Notation "'let*' x := c 'in' k" := (bind c (fun x => k))
  (at level 10, x name, c at level 100, k at level 200, only parsing).

(** The body of the loop of lines 53-63 for one entry of the table; the
    test [isinstance(candidate[key], (int, float))] holds exactly when
    [as_num] gives the operand of the addition. *)
Definition mutate (self : ArchitectureEvolver) (candidate : ref)
    (entry : string * (Z * Z)) : M unit :=
  let '(key, (low, high)) := entry in
  let* d := deref candidate in
  match dict_get d key with
  | Some v =>
      match as_num v with
      | Some n =>
          let range_size := high - low in
          let* g := draw (gauss 0 (noise_scale self)) in
          let* noise := lift (noise_of g range_size) in
          let* new_value := lift (num_add n (NInt noise)) in
          let* z := lift (num_int (py_max (NInt low) (py_min (NInt high) new_value))) in
          setitem candidate key (VInt z)
      | None =>
          let* z := lift (midpoint low high) in
          setitem candidate key (VInt z)
      end
  | None =>
      let* z := lift (midpoint low high) in
      setitem candidate key (VInt z)
  end.

Fixpoint for_each {A : Type} (l : list A) (body : A -> M unit) : M unit :=
  match l with
  | [] => ret tt
  | x :: l' => let* _ := body x in for_each l' body
  end.

Definition evolve (self : ArchitectureEvolver) (parent : ref) : M ref :=
  let* candidate := deepcopy parent in
  let* _ := for_each numeric_keys (mutate self candidate) in
  let* r := draw (randint 0 10000000) in
  let* _ := setitem candidate "id" (VStr ("arch_" +:+ format_07d r)) in
  ret candidate.

End WithRandom.

Arguments world G : clear implicits.
Arguments M G A : clear implicits.

(** What the loop needs of a draw [g] for a range of width [range_size]:
    the product [g * range_size] is a finite double, so that [int()] of
    line 57 accepts it. [random.gauss] with a finite [sigma] returns such
    draws. *)
Definition usable_noise (g : float) (range_size : Z) : Prop :=
  exists n : Z, noise_of g range_size = Ok n.

Definition GaussUsable (G : Type) `{RandomModule G} : Prop :=
  forall (mu sigma : float) (s : G) (key : string) (low high : Z),
    In (key, (low, high)) numeric_keys ->
    usable_noise (fst (gauss mu sigma s)) (high - low).

(** A generator whose every draw is the same, for concrete runs. *)
Definition constant_random (g : float) (r : Z) (u : float) : RandomModule unit :=
  {| gauss := fun _ _ s => (g, s);
     randint := fun _ _ s => (r, s);
     random := fun s => (u, s) |}.

(** The condition of the repair branch, the test of line 54 failing: the
    parent has no entry for [key], or one that is not an instance of
    [(int, float)]. *)
Definition absent_or_not_numeric (d : dict) (key : string) : Prop :=
  match dict_get d key with
  | Some v => isinstance_int_float v = false
  | None => True
  end.

End Evolve.

(** ** Strings *)

(** [str] as its UTF-8 bytes. The three methods below are Python's on
    ASCII text; a byte above 127 is left alone by [lower] and is no
    space, which is Python's behaviour on the caseless non-ASCII
    characters of the corpus. *)
Module PyStr.

(** [c.isspace()] on an ASCII character. *)
Definition is_space (c : ascii) : bool :=
  let n := N_of_ascii c in
  ((9 <=? n) && (n <=? 13) || (28 <=? n) && (n <=? 32))%N.

Definition lower_char (c : ascii) : ascii :=
  let n := N_of_ascii c in
  if ((65 <=? n) && (n <=? 90))%N then ascii_of_N (n + 32) else c.

(** [s.lower()] *)
Fixpoint lower (s : string) : string :=
  match s with
  | EmptyString => EmptyString
  | String c s' => String (lower_char c) (lower s')
  end.

(** [s.split()]: the maximal runs of non-space characters; [cur] is the
    run being read, reversed. *)
Fixpoint split_go (cur : string) (s : string) : list string :=
  match s with
  | EmptyString =>
      match cur with
      | EmptyString => []
      | _ => [String.rev cur]
      end
  | String c s' =>
      if is_space c then
        match cur with
        | EmptyString => split_go EmptyString s'
        | _ => String.rev cur :: split_go EmptyString s'
        end
      else split_go (String c cur) s'
  end.

Definition split (s : string) : list string := split_go EmptyString s.

(** [sub in s] *)
Fixpoint contains (sub s : string) : bool :=
  String.prefix sub s ||
  match s with
  | EmptyString => false
  | String _ s' => contains sub s'
  end.

End PyStr.

(** ** cognition_base/rag_service.py *)

Module Rag.

Record RAGService : Type := mkRAGService {
  corpus : list string;
}.

Definition default_corpus : list string :=
  ["Linear attention mechanisms can reduce the quadratic complexity of standard self‑attention by approximating the softmax kernel.";
   "Increasing the number of layers and hidden size typically improves model capacity but also increases compute requirements.";
   "Novel architectures should balance expressiveness with efficiency."]%string.

(** [RAGService(corpus)]: [corpus or [...]] takes the default for [None]
    and for the empty list. *)
Definition init (corpus : option (list string)) : RAGService :=
  match corpus with
  | Some (s :: c) => mkRAGService (s :: c)
  | _ => mkRAGService default_corpus
  end.

(** [l[:k]]: the first [k] elements, or all but the last [-k] for a
    negative [k]. *)
Definition slice_to {A : Type} (l : list A) (k : Z) : list A :=
  if 0 <=? k then firstn (Z.to_nat k) l
  else firstn (length l - Z.to_nat (- k)) l.

(** The test of line 35 on one sentence. *)
Definition matches (question_lower : string) (sent : string) : bool :=
  existsb (fun word => PyStr.contains word (PyStr.lower sent))
    (PyStr.split question_lower).

Definition query (self : RAGService) (question : string) (top_k : Z) : list string :=
  let question_lower := PyStr.lower question in
  let results := List.filter (matches question_lower) (corpus self) in
  match results with
  | [] => slice_to (corpus self) top_k
  | _ :: _ => slice_to results top_k
  end.

End Rag.

(** ** pipeline/eval.py *)

Module Evaluate.
Import Py.

Record ArchitectureEvaluator : Type := mkArchitectureEvaluator {
  model : value;
  use_local : value;
}.

(** What [requests.post(url, json=payload, timeout=60)] can come to: no
    reply (connection refused, timeout: a [RequestException]), or a reply
    with a status that [raise_for_status] accepts or not and a body that
    [r.json()] decodes or not. *)
Inductive http_reply : Type :=
  | NoReply
  | Reply (status_ok : bool) (body : option value).

(** The world outside the program: the Ollama server and the library
    functions [json.dumps], [json.loads], [str.strip()],
    [str.strip(chars)] and [float(str)]. *)
Record environment : Type := mkEnvironment {
  post : string -> dict -> http_reply;
  json_dumps : value -> string;
  json_loads : string -> result value;
  str_strip : string -> string;
  str_strip_chars : string -> string -> string;
  float_of_string : string -> result float;
}.

(** ['response' not in data], then [data['response']]: only a dict
    with that key gets through. *)
Definition response_of (data : value) : result value :=
  match data with
  | VDict d =>
      match dict_get d "response" with
      | Some v => Ok v
      | None => Raise ValueError
      end
  | VList l =>
      if existsb (fun v => match v with
                           | VStr s => String.eqb s "response"
                           | _ => false
                           end) l
      then Raise TypeError else Raise ValueError
  | VStr s => if PyStr.contains "response" s then Raise TypeError else Raise ValueError
  | _ => Raise TypeError
  end.

(** Lines 54-60: the one request of [_call_llm]. *)
Definition ollama_reply (env : environment) (self : ArchitectureEvaluator)
    (prompt : string) : http_reply :=
  let url := "http://localhost:11434/api/generate"%string in
  let payload :=
    [("model", model self); ("prompt", VStr prompt); ("stream", VBool false)] in
  post env url payload.

Definition call_llm (env : environment) (self : ArchitectureEvaluator)
    (prompt : string) : result value :=
  match ollama_reply env self prompt with
  | NoReply => Raise RequestException
  | Reply false _ => Raise HTTPError
  | Reply true None => Raise JSONDecodeError
  | Reply true (Some data) => response_of data
  end.

(** [float(v)] *)
Definition py_float (env : environment) (v : value) : result float :=
  match v with
  | VStr s => float_of_string env s
  | VNone | VList _ | VDict _ => Raise TypeError
  | VBool b => Ok (if b then 1 else 0)%float
  | VInt z => num_float (NInt z)
  | VFloat f => Ok f
  end.

(** Line 106: [raw.strip().strip('```').strip()]. *)
Definition cleaned (env : environment) (s : string) : string :=
  str_strip env (str_strip_chars env (str_strip env s) "```").

(** Lines 106-113: from the text received to the three scores. *)
Definition parse_scores (env : environment) (raw : value) : result EvaluationResult :=
  match raw with
  | VStr s =>
      rbind (json_loads env (cleaned env s)) (fun metrics =>
        match metrics with
        | VDict m =>
            rbind (py_float env (dict_get_default m "performance" (VFloat 0))) (fun p =>
            rbind (py_float env (dict_get_default m "novelty" (VFloat 0))) (fun n =>
            rbind (py_float env (dict_get_default m "complexity" (VFloat 0))) (fun c =>
              Ok (mkEvaluationResult p n c raw))))
        | _ => Raise AttributeError
        end)
  | _ => Raise AttributeError
  end.

Definition prompt_of (env : environment) (architecture : dict) : string :=
  ("You are an expert model architect. Given the following architecture description in JSON, assess its quality."
   +:+ String "010" ("Architecture: " +:+ json_dumps env (VDict architecture)
   +:+ String "010" ("Return a JSON object with keys 'performance', 'novelty' and 'complexity', each between 0 and 1, representing your estimates of how strong, novel and complex this design is. Do not include any additional commentary."
   +:+ String "010" "")))%string.

(** The [try] block of lines 102-116: the value of [raw] when it is left,
    and its outcome. *)
Definition try_block (env : environment) (self : ArchitectureEvaluator)
    (prompt : string) : value * result EvaluationResult :=
  match call_llm env self prompt with
  | Raise e => (VStr "", Raise e)
  | Ok raw => (raw, parse_scores env raw)
  end.

Section WithRandom.

Context {G : Type} `{RandomModule G}.

(** Lines 118-123: three draws, and [raw or 'fallback']. *)
Definition fallback (raw : value) (s : G) : EvaluationResult * G :=
  let (p, s1) := random s in
  let (n, s2) := random s1 in
  let (c, s3) := random s2 in
  (mkEvaluationResult p n c (if truthy raw then raw else VStr "fallback"), s3).

Definition evaluate (env : environment) (self : ArchitectureEvaluator)
    (architecture : dict) (s : G) : EvaluationResult * G :=
  let prompt := prompt_of env architecture in
  if truthy (use_local self) then
    match try_block env self prompt with
    | (_, Ok res) => (res, s)
    | (raw, Raise _) => fallback raw s
    end
  else fallback (VStr "") s.

End WithRandom.

(** [random.random()] returns a double of [[0, 1)]. *)
Definition RandomInUnit (G : Type) `{RandomModule G} : Prop :=
  forall s : G,
    (0 <=? fst (random s))%float = true /\ (fst (random s) <? 1)%float = true.

Definition in_unit (x : float) : Prop :=
  (0 <=? x)%float = true /\ (x <? 1)%float = true.

(** An environment for concrete runs: a server that answers in prose,
    and a decoder that rejects what is not JSON. *)
Definition prose_environment : environment :=
  {| post := fun _ _ =>
       Reply true (Some (VDict [("response", VStr "I cannot score this.")]));
     json_dumps := fun _ => "{}"%string;
     json_loads := fun _ => Raise JSONDecodeError;
     str_strip := fun s => s;
     str_strip_chars := fun s _ => s;
     float_of_string := fun _ => Raise ValueError |}.

End Evaluate.

(** ** pipeline/pipeline.py *)

Module Pipeline.
Import Py.

Record ArchitecturePipeline : Type := mkArchitecturePipeline {
  evolver : Evolve.ArchitectureEvolver;
  evaluator : Evaluate.ArchitectureEvaluator;
}.

(** [ArchitecturePipeline(config)]: [__post_init__] with the two
    [config.get] of the evaluator's constructor. *)
Definition init (config : dict) : ArchitecturePipeline :=
  {| evolver := Evolve.default_evolver;
     evaluator :=
       Evaluate.mkArchitectureEvaluator
         (dict_get_default config "model" (VStr "llama3"))
         (dict_get_default config "use_local_model" (VBool true)) |}.

Section WithWorld.

Context {G : Type} `{RandomModule G}.
Variable env : Evaluate.environment.
Variable format_2f : float -> string.
Variable py_str : value -> string.

(** [run_cycle]: sample, evolve, evaluate, analyze, save. The parent is a
    dict of its own, fresh from the store; anything but a dict makes
    [evolve] raise a [TypeError] on its first membership test or item
    assignment. The result is the report, with the history and the
    generator as the cycle leaves them. *)
Definition run_cycle (self : ArchitecturePipeline) (data : Database.history) (s : G)
    : result (Analyze.AnalysisReport * (Database.history * G)) :=
  rbind (Database.sample_parent data) (fun parent_arch =>
    match parent_arch with
    | VDict d =>
        match Evolve.evolve (evolver self) 0%nat (Evolve.mkWorld [d] s) with
        | Ok (c, w) =>
            match Evolve.heap w !! c with
            | Some candidate_arch =>
                let (evaluation, s') :=
                  Evaluate.evaluate env (evaluator self) candidate_arch (Evolve.rng w) in
                let report :=
                  Analyze.analyze format_2f py_str candidate_arch evaluation in
                Ok (report, (Database.save_result report data, s'))
            | None => Raise BadReference
            end
        | Raise e => Raise e
        end
    | _ => Raise TypeError
    end).

End WithWorld.

End Pipeline.

(** ** pipeline/pipeline.py: the loop of [main] *)

Module Main.
Import Py.

(** [range(num_cycles)]: the number of turns for an [int] (none for a
    negative one) or a [bool]; anything else is a [TypeError]. *)
Definition range_count (num_cycles : value) : result nat :=
  match num_cycles with
  | VInt z => Ok (Z.to_nat z)
  | VBool b => Ok (if b then 1%nat else 0%nat)
  | _ => Raise TypeError
  end.

Section WithWorld.

Context {G : Type} `{RandomModule G}.
Variable env : Evaluate.environment.
Variable format_2f : float -> string.
Variable py_str : value -> string.

(** The loop of lines 96-98: each turn is one [run_cycle] on the history
    the turn before left; the reports are what the loop prints, in order. *)
Fixpoint run_cycles (self : Pipeline.ArchitecturePipeline) (n : nat)
    (data : Database.history) (s : G)
    : result (list Analyze.AnalysisReport * (Database.history * G)) :=
  match n with
  | O => Ok ([], (data, s))
  | S n' =>
      rbind (Pipeline.run_cycle env format_2f py_str self data s) (fun cycle =>
        let '(report, (data', s')) := cycle in
        rbind (run_cycles self n' data' s') (fun rest =>
          let '(reports, final) := rest in
          Ok (report :: reports, final)))
  end.

(** [main] on the decoded [config.json] and the history of the results
    file. *)
Definition main (config : dict) (data : Database.history) (s : G)
    : result (list Analyze.AnalysisReport * (Database.history * G)) :=
  let pipeline := Pipeline.init config in
  let num_cycles := dict_get_default config "num_cycles" (VInt 1) in
  rbind (range_count num_cycles) (fun n => run_cycles pipeline n data s).

End WithWorld.

(** A history as the pipeline writes it: every record has a number (not a
    NaN) as its score, or none, and a dict as its architecture. *)
Definition sound_history (data : Database.history) : Prop :=
  forall e, e ∈ data ->
    is_Some (Database.rank e) /\
    exists d, dict_get e "architecture" = Some (VDict d).

(** A report whose composite score lies in [[0, 1]]. *)
Definition in_closed_unit (r : Analyze.AnalysisReport) : Prop :=
  (0 <=? Analyze.composite_score r)%float = true /\
  (Analyze.composite_score r <=? 1)%float = true.

(** A configuration as the proposer leaves it: the three parameters are
    integers of their ranges, and the id is the tag of a draw. *)
Definition valid_configuration (d : dict) : Prop :=
  (forall (key : string) (low high : Z),
      In (key, (low, high)) Evolve.numeric_keys ->
      exists z : Z, dict_get d key = Some (VInt z) /\ low <= z <= high) /\
  (exists r : Z, dict_get d "id" = Some (VStr ("arch_" +:+ Evolve.format_07d r))).

Definition valid_report (r : Analyze.AnalysisReport) : Prop :=
  valid_configuration (Analyze.architecture r) /\ in_closed_unit r.

(** A stored score that no comparison accepts: JSON [null] or an object. *)
Definition unorderable (v : value) : Prop :=
  match v with
  | VNone | VDict _ => True
  | _ => False
  end.

End Main.

(** ** Terms for the properties of the proposer *)

Module Mutation.
Import Py.

(** The parent holds an [int] for [key] (a [bool] is one: 0 or 1). *)
Definition int_parameter (d : dict) (key : string) (v : Z) : Prop :=
  exists x, dict_get d key = Some x /\ as_num x = Some (NInt v).

(** [max(low, min(high, x))] on integers. *)
Definition clamp_int (low high x : Z) : Z := Z.max low (Z.min high x).

(** A decimal numeral without a leading zero: ["0"], or one that starts
    with another character. *)
Definition canonical (s : string) : Prop :=
  s = "0"%string \/ exists c t, s = String c t /\ c <> "0"%char.

End Mutation.

(** ** Terms for the properties of the retrieval service *)

Module Question.

(** A question without a word: empty, or made of spaces only. *)
Fixpoint blank (s : string) : bool :=
  match s with
  | EmptyString => true
  | String c s' => PyStr.is_space c && blank s'
  end.

End Question.

(** ** A server that scores *)

Module Scoring.
Import Py.

(** The text of a reply: a JSON object in which [novelty] is the integer
    2 and [complexity] is left out. *)
Definition reply_text : string :=
  let q := String "034"%char EmptyString in
  ("{" +:+ q +:+ "performance" +:+ q +:+ ": 0.8, "
   +:+ q +:+ "novelty" +:+ q +:+ ": 2}")%string.

(** An environment for concrete runs: the model answers with that text,
    and the decoder reads it. *)
Definition scoring_environment : Evaluate.environment :=
  {| Evaluate.post := fun _ _ =>
       Evaluate.Reply true (Some (VDict [("response", VStr reply_text)]));
     Evaluate.json_dumps := fun _ => "{}"%string;
     Evaluate.json_loads := fun _ =>
       Ok (VDict [("performance", VFloat 0.8); ("novelty", VInt 2)]);
     Evaluate.str_strip := fun s => s;
     Evaluate.str_strip_chars := fun s _ => s;
     Evaluate.float_of_string := fun _ => Raise ValueError |}.

End Scoring.

(** * Properties *)

(** ** Doubles against their exact values *)

Module PyFloatFacts.
Import PyFloat.

Lemma digits2_pos_bounds (m : positive) :
  2 ^ (Z.pos (digits2_pos m) - 1) <= Z.pos m < 2 ^ Z.pos (digits2_pos m).
Proof.
  induction m as [m IH | m IH | ]; cbn [digits2_pos].
  - rewrite Pos2Z.inj_succ.
    replace (Z.succ (Z.pos (digits2_pos m)) - 1) with (Z.pos (digits2_pos m)) by lia.
    rewrite Z.pow_succ_r by lia.
    assert (Hd : Z.pos (digits2_pos m) = Z.succ (Z.pos (digits2_pos m) - 1)) by lia.
    rewrite Hd at 1. rewrite Z.pow_succ_r by lia. lia.
  - rewrite Pos2Z.inj_succ.
    replace (Z.succ (Z.pos (digits2_pos m)) - 1) with (Z.pos (digits2_pos m)) by lia.
    rewrite Z.pow_succ_r by lia.
    assert (Hd : Z.pos (digits2_pos m) = Z.succ (Z.pos (digits2_pos m) - 1)) by lia.
    rewrite Hd at 1. rewrite Z.pow_succ_r by lia. lia.
  - cbn. lia.
Qed.

(** What validity of a finite binary64 gives: the exponent is at least
    [emin], the mantissa has at most 53 bits, and exactly 53 above [emin]. *)
Lemma valid_finite_bounds (s : bool) (m : positive) (e : Z) :
  valid_binary (S754_finite s m e) = true ->
  emin <= e /\ Z.pos m < 2 ^ 53 /\ (emin < e -> 2 ^ 52 <= Z.pos m).
Proof.
  unfold SpecFloat.valid_binary, bounded, canonical_mantissa, fexp.
  intros H. apply andb_true_iff in H as [H _]. apply Z.eqb_eq in H.
  pose proof (digits2_pos_bounds m) as [Hlo Hhi].
  set (d := Z.pos (digits2_pos m)) in *.
  change (SpecFloat.emin prec emax) with (-1074) in *.
  change prec with 53 in *.
  assert (Hd : d <= 53) by lia.
  split; [lia|]. split.
  - eapply Z.lt_le_trans; [exact Hhi|]. apply Z.pow_le_mono_r; lia.
  - intros He. assert (d = 53) by lia. subst d.
    replace 52 with (Z.pos (digits2_pos m) - 1) by lia. exact Hlo.
Qed.

Lemma mag_lt (s1 s2 : bool) (m1 m2 : positive) (e1 e2 : Z) :
  valid_binary (S754_finite s1 m1 e1) = true ->
  valid_binary (S754_finite s2 m2 e2) = true ->
  e1 < e2 ->
  Z.pos m1 * 2 ^ (e1 - emin) < Z.pos m2 * 2 ^ (e2 - emin).
Proof.
  intros V1 V2 He.
  apply valid_finite_bounds in V1 as (L1 & U1 & _).
  apply valid_finite_bounds in V2 as (L2 & _ & N2).
  specialize (N2 ltac:(lia)).
  change (SpecFloat.emin prec emax) with (-1074) in *.
  assert (Hp : 0 < 2 ^ (e1 - -1074)) by (apply Z.pow_pos_nonneg; lia).
  assert (Hq : 2 * 2 ^ (e1 - -1074) <= 2 ^ (e2 - -1074)).
  { rewrite <- Z.pow_succ_r by lia. apply Z.pow_le_mono_r; lia. }
  change (2 ^ 53) with 9007199254740992 in U1.
  change (2 ^ 52) with 4503599627370496 in N2.
  nia.
Qed.

Lemma mag_compare (s1 s2 : bool) (m1 m2 : positive) (e1 e2 : Z) :
  valid_binary (S754_finite s1 m1 e1) = true ->
  valid_binary (S754_finite s2 m2 e2) = true ->
  match e1 ?= e2 with
  | Lt => Lt
  | Gt => Gt
  | Eq => Pos.compare_cont Eq m1 m2
  end = (Z.pos m1 * 2 ^ (e1 - emin) ?= Z.pos m2 * 2 ^ (e2 - emin)).
Proof.
  intros V1 V2. destruct (Z.compare_spec e1 e2) as [-> | He | He].
  - rewrite <- Zmult_compare_compat_r; [reflexivity|].
    apply valid_finite_bounds in V2 as (L2 & _).
    change (SpecFloat.emin prec emax) with (-1074) in *.
    apply Z.lt_gt, Z.pow_pos_nonneg; lia.
  - symmetry. apply Z.compare_lt_iff. eapply mag_lt; eauto.
  - symmetry. apply Z.compare_gt_iff. eapply mag_lt; eauto.
Qed.

(** The IEEE comparison of two valid numbers is the comparison of their
    exact values. *)
Lemma SFcompare_scaled (x y : spec_float) (a b : ext) :
  valid_binary x = true -> valid_binary y = true ->
  SFscaled x = Some a -> SFscaled y = Some b ->
  SFcompare x y = Some (ext_compare a b).
Proof.
  intros Vx Vy Hx Hy.
  destruct x as [sx | sx | | sx mx ex], y as [sy | sy | | sy my ey];
    cbn in Hx, Hy; try discriminate;
    injection Hx as <-; injection Hy as <-.
  - reflexivity.
  - destruct sy; reflexivity.
  - destruct sy; cbn [SFcompare cond_Zopp ext_compare]; f_equal; symmetry;
      [apply Z.compare_gt_iff | apply Z.compare_lt_iff];
      pose proof (Z.pow_pos_nonneg 2 (ey - emin) ltac:(lia)
                    ltac:(apply valid_finite_bounds in Vy; lia)); lia.
  - destruct sx; reflexivity.
  - destruct sx, sy; reflexivity.
  - destruct sx; reflexivity.
  - destruct sx; cbn [SFcompare cond_Zopp ext_compare]; f_equal; symmetry;
      [apply Z.compare_lt_iff | apply Z.compare_gt_iff];
      pose proof (Z.pow_pos_nonneg 2 (ex - emin) ltac:(lia)
                    ltac:(apply valid_finite_bounds in Vx; lia)); lia.
  - destruct sy; reflexivity.
  - pose proof (Z.pow_pos_nonneg 2 (ex - emin) ltac:(lia)
                  ltac:(apply valid_finite_bounds in Vx; lia)) as Px.
    pose proof (Z.pow_pos_nonneg 2 (ey - emin) ltac:(lia)
                  ltac:(apply valid_finite_bounds in Vy; lia)) as Py.
    pose proof (mag_compare sx sy mx my ex ey Vx Vy) as Hc.
    destruct sx, sy; cbn [SFcompare cond_Zopp ext_compare]; f_equal.
    + rewrite Z.compare_opp, (Z.compare_antisym (Z.pos mx * _)), <- Hc.
      destruct (ex ?= ey); reflexivity.
    + symmetry. apply Z.compare_lt_iff. lia.
    + symmetry. apply Z.compare_gt_iff. lia.
    + exact Hc.
Qed.

(** [f < g] on doubles, as the hardware decides it, against exact values. *)
Lemma ltb_scaled (f g : float) (a b : ext) :
  scaled f = Some a -> scaled g = Some b ->
  (f <? g)%float = ext_ltb a b.
Proof.
  intros Hf Hg. rewrite FloatAxioms.ltb_spec. unfold SFltb, ext_ltb.
  rewrite (SFcompare_scaled _ _ a b (Prim2SF_valid f) (Prim2SF_valid g) Hf Hg).
  reflexivity.
Qed.

(** A comparison with a NaN is false. *)
Lemma ltb_nan_l (f g : float) : scaled f = None -> (f <? g)%float = false.
Proof.
  unfold scaled. intros Hf. rewrite FloatAxioms.ltb_spec. unfold SFltb.
  destruct (Prim2SF f); try discriminate. reflexivity.
Qed.

Lemma ltb_nan_r (f g : float) : scaled g = None -> (f <? g)%float = false.
Proof.
  unfold scaled. intros Hg. rewrite FloatAxioms.ltb_spec. unfold SFltb.
  destruct (Prim2SF g); try discriminate.
  destruct (Prim2SF f); reflexivity.
Qed.

(** [int(f)] of a finite double is its exact value rounded toward zero. *)
Lemma trunc_scaled (f : float) (v : Z) :
  scaled f = Some (Fin v) -> trunc f = Some (Z.quot v scale).
Proof.
  unfold scaled, trunc. pose proof (Prim2SF_valid f) as V.
  destruct (Prim2SF f) as [s | s | | s m e]; cbn [SFscaled SFtrunc];
    try discriminate.
  - intros [= <-]. reflexivity.
  - destruct s; discriminate.
  - intros [= <-]. f_equal.
    apply valid_finite_bounds in V as (L & _).
    change (SpecFloat.emin prec emax) with (-1074) in *.
    assert (Hs : 0 < scale) by (apply Z.pow_pos_nonneg; lia).
    assert (Hq : Z.quot (Z.pos m * 2 ^ (e - -1074)) scale
                 = if 0 <=? e then Z.pos m * 2 ^ e else Z.pos m / 2 ^ (- e)).
    { destruct (Z.leb_spec 0 e) as [He | He].
      - replace (e - -1074) with (e + 1074) by lia.
        rewrite Z.pow_add_r by lia. rewrite Z.mul_assoc.
        apply Z.quot_mul. unfold scale in *. lia.
      - rewrite Z.quot_div_nonneg by (try apply Z.mul_nonneg_nonneg; try apply Z.pow_nonneg; lia).
        assert (Hsc : scale = 2 ^ (- e) * 2 ^ (e - -1074)).
        { unfold scale. rewrite <- Z.pow_add_r by lia. f_equal. lia. }
        rewrite Hsc. apply Z.div_mul_cancel_r.
        + apply Z.pow_nonzero; lia.
        + apply Z.pow_nonzero; lia. }
    destruct s; cbn [cond_Zopp].
    + rewrite Z.quot_opp_l by lia. now rewrite Hq.
    + now rewrite Hq.
Qed.

(** A double strictly between two integers truncates into their range. *)
Lemma trunc_between (f : float) (a : ext) (lo hi : Z) :
  0 <= lo ->
  scaled f = Some a ->
  ext_ltb (scaled_int lo) a = true ->
  ext_ltb a (scaled_int hi) = true ->
  exists n, trunc f = Some n /\ lo <= n < hi.
Proof.
  intros Hlo Hf Hl Hh. destruct a as [ | v | ]; try discriminate.
  unfold ext_ltb, scaled_int in *. cbn [ext_compare] in *.
  assert (Hs : 0 < scale) by (apply Z.pow_pos_nonneg; lia).
  destruct (Z.compare_spec (lo * scale) v) as [ | Hlv | ]; try discriminate.
  destruct (Z.compare_spec v (hi * scale)) as [ | Hvh | ]; try discriminate.
  exists (Z.quot v scale). split; [now apply trunc_scaled|].
  rewrite Z.quot_div_nonneg by nia. split.
  - apply Z.div_le_lower_bound; lia.
  - apply Z.div_lt_upper_bound; lia.
Qed.

Lemma leb_scaled (f g : float) (a b : ext) :
  scaled f = Some a -> scaled g = Some b ->
  (f <=? g)%float = ext_leb a b.
Proof.
  intros Hf Hg. rewrite FloatAxioms.leb_spec. unfold SFleb, ext_leb.
  rewrite (SFcompare_scaled _ _ a b (Prim2SF_valid f) (Prim2SF_valid g) Hf Hg).
  destruct (ext_compare a b); reflexivity.
Qed.

Lemma ltb_leb (f g : float) : (f <? g)%float = true -> (f <=? g)%float = true.
Proof.
  rewrite FloatAxioms.ltb_spec, FloatAxioms.leb_spec. unfold SFltb, SFleb.
  destruct (SFcompare (Prim2SF f) (Prim2SF g)) as [[ | | ] | ]; congruence.
Qed.

(** A NaN is the only double without an exact value. *)
Lemma is_nan_scaled (f : float) : is_nan f = false <-> exists a, scaled f = Some a.
Proof.
  unfold is_nan, scaled. rewrite FloatAxioms.eqb_spec. unfold SFeqb.
  pose proof (Prim2SF_valid f) as V.
  destruct (Prim2SF f) as [s | s | | s m e] eqn:E; cbn [SFscaled].
  - split; [eauto | reflexivity].
  - split; [eauto | destruct s; reflexivity].
  - split; [discriminate | intros [a Ha]; discriminate].
  - split; [eauto | intros _].
    rewrite (SFcompare_scaled _ _ _ _ V V eq_refl eq_refl).
    cbn [ext_compare]. now rewrite Z.compare_refl.
Qed.

End PyFloatFacts.

(** ** Arithmetic on finite doubles: no NaN, no overflow below 1 *)

Module FloatArithFacts.
Import PyFloat PyFloatFacts.

Lemma iter_pos_invariant {A : Type} (P : A -> Prop) (f : A -> A) :
  (forall x, P x -> P (f x)) ->
  forall (p : positive) (x : A), P x -> P (iter_pos f p x).
Proof.
  intros Hf. induction p as [p IH | p IH | ]; intros x Hx; cbn [iter_pos]; auto.
Qed.

Lemma shr_1_half (mrs : shr_record) :
  0 <= shr_m mrs -> shr_m (shr_1 mrs) = shr_m mrs / 2.
Proof.
  destruct mrs as [m r s]. cbn [shr_m shr_1]. intros Hm.
  destruct m as [ | [p | p | ] | p]; cbn [shr_m]; try lia.
  - reflexivity.
  - rewrite Pos2Z.inj_xI. apply (Z.div_unique _ 2 _ 1); lia.
  - rewrite Pos2Z.inj_xO. apply (Z.div_unique _ 2 _ 0); lia.
  - reflexivity.
Qed.

Lemma shr_1_nonneg (mrs : shr_record) : 0 <= shr_m mrs -> 0 <= shr_m (shr_1 mrs).
Proof.
  intros Hm. rewrite shr_1_half by exact Hm. apply Z.div_pos; lia.
Qed.

Lemma shr_iter_nonneg (p : positive) (mrs : shr_record) :
  0 <= shr_m mrs -> 0 <= shr_m (iter_pos shr_1 p mrs).
Proof.
  apply (iter_pos_invariant (fun x => 0 <= shr_m x) shr_1 shr_1_nonneg).
Qed.

(** A right shift by [p] bits divides the mantissa by [2^p]. *)
Lemma shr_m_iter (p : positive) (mrs : shr_record) :
  0 <= shr_m mrs ->
  shr_m (iter_pos shr_1 p mrs) = shr_m mrs / 2 ^ Z.pos p.
Proof.
  revert mrs. induction p as [p IH | p IH | ]; intros mrs Hm; cbn [iter_pos].
  - rewrite IH by (apply shr_iter_nonneg, shr_1_nonneg, Hm).
    rewrite IH by (apply shr_1_nonneg, Hm).
    rewrite shr_1_half by exact Hm.
    rewrite !Z.div_div by (try apply Z.pow_pos_nonneg; lia).
    f_equal. replace (Z.pos p~1) with (1 + Z.pos p + Z.pos p) by lia.
    rewrite !Z.pow_add_r by lia. lia.
  - rewrite IH by (apply shr_iter_nonneg, Hm).
    rewrite IH by exact Hm.
    rewrite !Z.div_div by (try apply Z.pow_pos_nonneg; lia).
    f_equal. replace (Z.pos p~0) with (Z.pos p + Z.pos p) by lia.
    rewrite !Z.pow_add_r by lia. lia.
  - rewrite shr_1_half by exact Hm. reflexivity.
Qed.

Lemma shr_record_of_loc_m (m : Z) (l : location) :
  shr_m (shr_record_of_loc m l) = m.
Proof. destruct l as [ | [ | | ]]; reflexivity. Qed.

(** What [shr_fexp] does to a non-negative mantissa: nothing when the
    exponent is already at or above the target, else a division. *)
Lemma shr_fexp_spec (m e : Z) (l : location) :
  0 <= m ->
  let F := fexp prec emax (Zdigits2 m + e) in
  let r := shr_fexp prec emax m e l in
  (F <= e -> r = (shr_record_of_loc m l, e)) /\
  (e < F -> shr_m (fst r) = m / 2 ^ (F - e) /\ snd r = F).
Proof.
  intros Hm F r. subst r. unfold shr_fexp, shr. fold F.
  destruct (F - e) as [ | p | p] eqn:E; split; intros H; try lia; try reflexivity.
  cbn [fst snd]. rewrite shr_m_iter by (rewrite shr_record_of_loc_m; exact Hm).
  rewrite shr_record_of_loc_m. split; [reflexivity | lia].
Qed.

Lemma round_nearest_even_bounds (m : Z) (l : location) :
  m <= round_nearest_even m l <= m + 1.
Proof.
  destruct l as [ | [ | | ]]; cbn [round_nearest_even]; try lia.
  destruct (Z.even m); lia.
Qed.

(** L1. Rounding a non-negative mantissa never produces a NaN. *)
Lemma binary_round_aux_not_nan (s : bool) (m e : Z) (l : location) :
  0 <= m -> SFis_nan (binary_round_aux prec emax s m e l) = false.
Proof.
  intros Hm. unfold binary_round_aux.
  destruct (shr_fexp_spec m e l Hm) as [H1 H2]. cbv zeta in H1, H2.
  destruct (shr_fexp prec emax m e l) as [mrs' e'] eqn:E1.
  cbn [fst snd] in H1, H2.
  assert (Hm1 : 0 <= shr_m mrs').
  { destruct (Z.le_gt_cases (fexp prec emax (Zdigits2 m + e)) e) as [Hc | Hc].
    - specialize (H1 Hc). injection H1 as -> _. now rewrite shr_record_of_loc_m.
    - destruct (H2 Hc) as [-> _]. apply Z.div_pos; [lia|].
      apply Z.pow_pos_nonneg; lia. }
  set (mr := round_nearest_even (shr_m mrs') (loc_of_shr_record mrs')).
  assert (Hmr : 0 <= mr).
  { pose proof (round_nearest_even_bounds (shr_m mrs') (loc_of_shr_record mrs')).
    subst mr. lia. }
  destruct (shr_fexp_spec mr e' loc_Exact Hmr) as [H3 H4]. cbv zeta in H3, H4.
  destruct (shr_fexp prec emax mr e' loc_Exact) as [mrs'' e''] eqn:E2.
  cbn [fst snd] in H3, H4.
  assert (Hm2 : 0 <= shr_m mrs'').
  { destruct (Z.le_gt_cases (fexp prec emax (Zdigits2 mr + e')) e') as [Hc | Hc].
    - specialize (H3 Hc). injection H3 as -> _. exact Hmr.
    - destruct (H4 Hc) as [-> _]. apply Z.div_pos; [lia|].
      apply Z.pow_pos_nonneg; lia. }
  destruct (shr_m mrs'') as [ | q | q]; [reflexivity | | lia].
  destruct (e'' <=? emax - prec); reflexivity.
Qed.

Lemma binary_normalize_not_nan (m e : Z) (sz : bool) :
  SFis_nan (binary_normalize prec emax m e sz) = false.
Proof.
  unfold binary_normalize, binary_round.
  destruct m as [ | p | p]; [reflexivity | | ];
    destruct (shl_align p e _) as [mz ez];
    apply binary_round_aux_not_nan; lia.
Qed.

Lemma Zdigits2_le (x k : Z) : 0 <= x -> 0 <= k -> x < 2 ^ k -> Zdigits2 x <= k.
Proof.
  intros Hx Hk Hlt. destruct x as [ | p | p]; cbn [Zdigits2]; try lia.
  pose proof (digits2_pos_bounds p) as [Hlo _].
  assert (H2 : 2 ^ (Z.pos (digits2_pos p) - 1) < 2 ^ k) by lia.
  apply Z.pow_lt_mono_r_iff in H2; lia.
Qed.

Lemma fexp_eq (x : Z) : fexp prec emax x = Z.max (x - 53) (-1074).
Proof. reflexivity. Qed.

(** L2, the core. Rounding [m * 2^e] gives a finite double when the
    exponents stay at or below [emax - prec = 971] and the shifted
    mantissa, even rounded up, stays below [2^(1024 - F)]. *)
Lemma binary_round_aux_finite (s : bool) (m : positive) (e : Z) :
  let F := fexp prec emax (Zdigits2 (Z.pos m) + e) in
  e <= 971 -> F <= 971 ->
  (e < F -> Z.pos m / 2 ^ (F - e) + 1 < 2 ^ (1024 - F)) ->
  SFis_finite (binary_round_aux prec emax s (Z.pos m) e loc_Exact) = true.
Proof.
  intros F He HF Hm. unfold binary_round_aux.
  destruct (shr_fexp_spec (Z.pos m) e loc_Exact ltac:(lia)) as [H1 H2].
  cbv zeta in H1, H2. fold F in H1, H2.
  destruct (shr_fexp prec emax (Z.pos m) e loc_Exact) as [mrs' e'] eqn:E1.
  cbn [fst snd] in H1, H2.
  destruct (Z.le_gt_cases F e) as [Hc | Hc].
  - specialize (H1 Hc). injection H1 as -> ->.
    cbn [shr_record_of_loc loc_of_shr_record shr_m round_nearest_even].
    rewrite E1. cbn [shr_record_of_loc shr_m].
    change (emax - prec) with 971.
    destruct (Z.leb_spec e 971); [reflexivity | lia].
  - destruct (H2 Hc) as [Hm1 ->]. specialize (Hm Hc).
    set (mr := round_nearest_even (shr_m mrs') (loc_of_shr_record mrs')).
    pose proof (round_nearest_even_bounds (shr_m mrs') (loc_of_shr_record mrs')) as Hb.
    fold mr in Hb.
    assert (H0 : 0 <= shr_m mrs').
    { rewrite Hm1. apply Z.div_pos; [lia | apply Z.pow_pos_nonneg; lia]. }
    assert (Hmr : 0 <= mr) by lia.
    assert (Hd2 : Zdigits2 mr <= 1024 - F) by (apply Zdigits2_le; lia).
    destruct (shr_fexp_spec mr F loc_Exact Hmr) as [H3 H4]. cbv zeta in H3, H4.
    rewrite fexp_eq in H3, H4.
    assert (HFmin : -1074 <= F) by (unfold F; rewrite fexp_eq; lia).
    destruct (shr_fexp prec emax mr F loc_Exact) as [mrs'' e''] eqn:E2.
    cbn [fst snd] in H3, H4. change (emax - prec) with 971.
    destruct (Z.le_gt_cases (Z.max (Zdigits2 mr + F - 53) (-1074)) F) as [Hc2 | Hc2].
    + specialize (H3 Hc2). injection H3 as -> ->. cbn [shr_record_of_loc shr_m].
      destruct mr as [ | q | q]; [reflexivity | | lia].
      destruct (Z.leb_spec F 971); [reflexivity | lia].
    + destruct (H4 Hc2) as [Hm2 ->].
      assert (0 <= shr_m mrs'').
      { rewrite Hm2. apply Z.div_pos; [lia | apply Z.pow_pos_nonneg; lia]. }
      destruct (shr_m mrs'') as [ | q | q]; [reflexivity | | lia].
      destruct (Z.leb_spec (Z.max (Zdigits2 mr + F - 53) (-1074)) 971);
        [reflexivity | lia].
Qed.

Lemma valid_finite_emax (s : bool) (m : positive) (e : Z) :
  valid_binary (S754_finite s m e) = true ->
  e <= 971 /\ Z.pos (digits2_pos m) + e <= 1024.
Proof.
  unfold SpecFloat.valid_binary, bounded, canonical_mantissa.
  intros H. apply andb_true_iff in H as [Hc He].
  apply Z.eqb_eq in Hc. apply Z.leb_le in He. rewrite fexp_eq in Hc.
  change (emax - prec) with 971 in He. lia.
Qed.

(** L2. A finite double times a constant below 1 in magnitude (mantissa
    at most [2^53 - 2], exponent at most [-53]) is finite: the product
    cannot overflow. *)
Lemma SFmul_const_finite (sk : bool) (mk : positive) (ek : Z) (y : spec_float) :
  Z.pos mk <= 2 ^ 53 - 2 -> -1074 <= ek <= -53 ->
  valid_binary y = true -> SFis_finite y = true ->
  SFis_finite (SFmul prec emax (S754_finite sk mk ek) y) = true.
Proof.
  intros Hmk Hek Vy Fy.
  destruct y as [sy | sy | | sy my ey]; try discriminate; [reflexivity|].
  cbn [SFmul].
  destruct (valid_finite_emax sy my ey Vy) as [Hey Hdy].
  pose proof (digits2_pos_bounds my) as [_ Hmy].
  set (dy := Z.pos (digits2_pos my)) in *.
  assert (Hdy0 : 0 < dy) by (unfold dy; lia).
  assert (Hprod : Z.pos (mk * my) < 2 ^ (53 + dy)).
  { rewrite Pos2Z.inj_mul, Z.pow_add_r by lia.
    change (2 ^ 53) with 9007199254740992 in *. nia. }
  assert (Hd : Zdigits2 (Z.pos (mk * my)) <= 53 + dy) by (apply Zdigits2_le; lia).
  apply binary_round_aux_finite; rewrite ?fexp_eq.
  - lia.
  - lia.
  - set (F := Z.max (Zdigits2 (Z.pos (mk * my)) + (ek + ey) - 53) (-1074)).
    intros HeF.
    assert (HF1 : F <= 1024 + ek) by (unfold F; lia).
    assert (HF2 : F <= 971) by lia.
    assert (Hmy' : Z.pos my < 2 ^ (1024 - ey)).
    { eapply Z.lt_le_trans; [exact Hmy|]. apply Z.pow_le_mono_r; lia. }
    assert (Hsplit : 2 ^ (1024 - ey) = 2 ^ (F - (ek + ey)) * 2 ^ (1024 - F + ek)).
    { rewrite <- Z.pow_add_r by lia. f_equal. lia. }
    assert (Hpow1 : 0 < 2 ^ (F - (ek + ey))) by (apply Z.pow_pos_nonneg; lia).
    assert (Hpow2 : 0 < 2 ^ (1024 - F + ek)) by (apply Z.pow_pos_nonneg; lia).
    assert (Hq : Z.pos (mk * my) / 2 ^ (F - (ek + ey)) < Z.pos mk * 2 ^ (1024 - F + ek)).
    { apply Z.div_lt_upper_bound; [exact Hpow1|].
      rewrite Pos2Z.inj_mul. rewrite Hsplit in Hmy'. nia. }
    assert (Hmono : 2 ^ (1024 - F + ek) <= 2 ^ (971 - F))
      by (apply Z.pow_le_mono_r; lia).
    assert (Hpow3 : 1 <= 2 ^ (971 - F)).
    { change 1 with (2 ^ 0). apply Z.pow_le_mono_r; lia. }
    assert (Htop : 2 ^ (1024 - F) = 2 ^ 53 * 2 ^ (971 - F)).
    { rewrite <- Z.pow_add_r by lia. f_equal. lia. }
    rewrite Htop. change (2 ^ 53) with 9007199254740992 in *. nia.
Qed.

Lemma SFmul_finite_not_nan (x y : spec_float) :
  SFis_finite x = true -> SFis_finite y = true ->
  SFis_nan (SFmul prec emax x y) = false.
Proof.
  intros Fx Fy.
  destruct x as [sx | sx | | sx mx ex], y as [sy | sy | | sy my ey];
    try discriminate; try reflexivity.
  cbn [SFmul]. apply binary_round_aux_not_nan. lia.
Qed.

Lemma SFadd_finite_not_nan (x y : spec_float) :
  SFis_finite x = true -> SFis_nan y = false ->
  SFis_nan (SFadd prec emax x y) = false.
Proof.
  intros Fx Ny.
  destruct x as [sx | sx | | sx mx ex], y as [sy | sy | | sy my ey];
    try discriminate; try reflexivity.
  - destruct sx, sy; reflexivity.
  - cbn [SFadd]. apply binary_normalize_not_nan.
Qed.

Lemma SFsub_finite_not_nan (x y : spec_float) :
  SFis_nan x = false -> SFis_finite y = true ->
  SFis_nan (SFsub prec emax x y) = false.
Proof.
  intros Nx Fy.
  destruct x as [sx | sx | | sx mx ex], y as [sy | sy | | sy my ey];
    try discriminate; try reflexivity.
  - destruct sx, sy; reflexivity.
  - cbn [SFsub]. apply binary_normalize_not_nan.
Qed.

(** The primitive classifiers against the specification's. *)
Lemma is_nan_SF (f : float) : is_nan f = SFis_nan (Prim2SF f).
Proof.
  destruct (is_nan f) eqn:E.
  - destruct (Prim2SF f) eqn:P; try reflexivity;
      assert (is_nan f = false) as E' by
        (apply is_nan_scaled; unfold scaled; rewrite P; cbn; eauto);
      congruence.
  - apply is_nan_scaled in E as [a Ha]. unfold scaled in Ha.
    destruct (Prim2SF f); try reflexivity. discriminate.
Qed.

Lemma is_finite_SF (f : float) :
  is_finite f = true -> SFis_finite (Prim2SF f) = true.
Proof.
  unfold is_finite. rewrite is_nan_SF. unfold is_infinity.
  rewrite FloatAxioms.eqb_spec, abs_spec.
  change (Prim2SF infinity) with (S754_infinity false).
  destruct (Prim2SF f) as [s | s | | s m e]; cbn; try reflexivity; discriminate.
Qed.

(** *** [float(int(x))] never overflows *)

Lemma shl_align_spec (mx : positive) (ex ex' : Z) :
  (ex' < ex ->
   Z.pos (fst (shl_align mx ex ex')) = Z.pos mx * 2 ^ (ex - ex') /\
   snd (shl_align mx ex ex') = ex') /\
  (ex <= ex' -> shl_align mx ex ex' = (mx, ex)).
Proof.
  unfold shl_align.
  destruct (ex' - ex) as [ | d | d] eqn:E; split; intros H; try lia; try reflexivity.
  cbn [fst snd]. split; [|reflexivity].
  change (Pos.iter xO mx d) with (shift_pos d mx).
  rewrite shift_pos_correct, Z.pow_pos_fold.
  replace (ex - ex') with (Z.pos d) by lia. lia.
Qed.

(** The largest finite double, as an integer. *)
Lemma binary_round_max_finite (s : bool) :
  SFis_finite
    (binary_round prec emax s (Z.to_pos ((2 ^ 53 - 1) * 2 ^ 971)) 0) = true.
Proof. destruct s; vm_compute; reflexivity. Qed.

(** Converting an integer no larger than the largest double gives a
    finite double. *)
Lemma binary_round_int_finite (s : bool) (q : positive) :
  Z.pos q <= (2 ^ 53 - 1) * 2 ^ 971 ->
  SFis_finite (binary_round prec emax s q 0) = true.
Proof.
  intros Hq.
  destruct (Z.eq_dec (Z.pos q) ((2 ^ 53 - 1) * 2 ^ 971)) as [Heq | Hne].
  { replace q with (Z.to_pos ((2 ^ 53 - 1) * 2 ^ 971))
      by (rewrite <- Heq; apply Pos2Z.id).
    apply binary_round_max_finite. }
  assert (Hlt : Z.pos q < (2 ^ 53 - 1) * 2 ^ 971) by lia. clear Hq Hne.
  assert (H971 : 0 < 2 ^ 971) by (apply Z.pow_pos_nonneg; lia).
  pose proof (digits2_pos_bounds q) as [Dlo Dhi].
  set (D := Z.pos (digits2_pos q)) in *.
  assert (HD0 : 0 < D) by (unfold D; lia).
  assert (HD : D <= 1024).
  { assert (H2 : 2 ^ (D - 1) < 2 ^ 1024).
    { eapply Z.le_lt_trans; [exact Dlo|]. eapply Z.lt_trans; [exact Hlt|].
      replace 1024 with (53 + 971) by lia. rewrite Z.pow_add_r by lia.
      change (2 ^ 53) with 9007199254740992. nia. }
    apply Z.pow_lt_mono_r_iff in H2; lia. }
  unfold binary_round. rewrite fexp_eq. fold D.
  destruct (shl_align_spec q 0 (Z.max (D + 0 - 53) (-1074))) as [Hshl Hno].
  destruct (shl_align q 0 (Z.max (D + 0 - 53) (-1074))) as [mz ez] eqn:E.
  cbn [fst snd] in Hshl.
  destruct (Z.lt_ge_cases (Z.max (D + 0 - 53) (-1074)) 0) as [Hc | Hc].
  - destruct (Hshl Hc) as [Hmz ->].
    assert (Hmzlt : Z.pos mz < 2 ^ 53).
    { rewrite Hmz.
      replace 53 with (D + (0 - Z.max (D + 0 - 53) (-1074))) at 2 by lia.
      rewrite Z.pow_add_r by lia.
      assert (0 < 2 ^ (0 - Z.max (D + 0 - 53) (-1074)))
        by (apply Z.pow_pos_nonneg; lia).
      nia. }
    assert (Hdz : Zdigits2 (Z.pos mz) <= 53) by (apply Zdigits2_le; lia).
    apply binary_round_aux_finite; rewrite ?fexp_eq; lia.
  - specialize (Hno Hc). injection Hno as -> ->.
    apply binary_round_aux_finite; rewrite ?fexp_eq; cbn [Zdigits2]; fold D;
      [lia | lia |].
    replace (Z.max (D + 0 - 53) (-1074)) with (D - 53) by lia.
    intros HF. replace (D - 53 - 0) with (D - 53) by lia.
    replace (1024 - (D - 53)) with (1077 - D) by lia.
    destruct (Z.eq_dec D 1024) as [-> | HD'].
    + change (1024 - 53) with 971. change (1077 - 1024) with 53.
      assert (Z.pos q / 2 ^ 971 < 2 ^ 53 - 1)
        by (apply Z.div_lt_upper_bound; lia).
      lia.
    + assert (Hdiv : Z.pos q / 2 ^ (D - 53) < 2 ^ 53).
      { apply Z.div_lt_upper_bound; [apply Z.pow_pos_nonneg; lia|].
        rewrite <- Z.pow_add_r by lia. now replace (D - 53 + 53) with D by lia. }
      assert (Hpow : 2 ^ 54 <= 2 ^ (1077 - D)) by (apply Z.pow_le_mono_r; lia).
      change (2 ^ 53) with 9007199254740992 in Hdiv.
      change (2 ^ 54) with 18014398509481984 in Hpow. lia.
Qed.

(** [int(x)] of a finite double is within the doubles' range. *)
Lemma trunc_bound (x : float) (n : Z) :
  trunc x = Some n -> Z.abs n <= (2 ^ 53 - 1) * 2 ^ 971.
Proof.
  unfold trunc. pose proof (Prim2SF_valid x) as V.
  assert (H971 : 0 < 2 ^ 971) by (apply Z.pow_pos_nonneg; lia).
  destruct (Prim2SF x) as [s | s | | s m e]; cbn [SFtrunc]; try discriminate.
  - intros [= <-]. cbn. nia.
  - intros [= <-].
    destruct (valid_finite_emax s m e V) as [He _].
    destruct (valid_finite_bounds s m e V) as (_ & Hm & _).
    assert (Habs : forall z, 0 <= z -> Z.abs (cond_Zopp s z) = z)
      by (intros z Hz; destruct s; cbn [cond_Zopp]; lia).
    destruct (Z.leb_spec 0 e) as [Hpos | Hneg].
    + rewrite Habs by (apply Z.mul_nonneg_nonneg; [lia | apply Z.pow_nonneg; lia]).
      assert (Hmono : 2 ^ e <= 2 ^ 971) by (apply Z.pow_le_mono_r; lia).
      assert (0 < 2 ^ e) by (apply Z.pow_pos_nonneg; lia).
      change (2 ^ 53) with 9007199254740992 in *. nia.
    + assert (Hp : 0 < 2 ^ (- e)) by (apply Z.pow_pos_nonneg; lia).
      rewrite Habs by (apply Z.div_pos; lia).
      assert (Z.pos m / 2 ^ (- e) <= Z.pos m)
        by (apply Z.div_le_upper_bound; nia).
      change (2 ^ 53) with 9007199254740992 in *. nia.
Qed.

(** So the noise of line 57 always converts back to a double. *)
Lemma of_int_trunc (x : float) (n : Z) : trunc x = Some n -> is_Some (of_int n).
Proof.
  intros Hx. apply trunc_bound in Hx. unfold of_int, binary_normalize.
  destruct n as [ | q | q]; [eexists; reflexivity | | ].
  - pose proof (binary_round_int_finite false q ltac:(lia)) as Hf.
    destruct (binary_round prec emax false q 0); try discriminate; eauto.
  - pose proof (binary_round_int_finite true q ltac:(lia)) as Hf.
    destruct (binary_round prec emax true q 0); try discriminate; eauto.
Qed.

End FloatArithFacts.

(** ** The analyzer's composite score *)

Module AnalyzeFacts.
Import PyFloat PyFloatFacts FloatArithFacts.

Lemma scaled_zero : scaled 0 = Some (Fin 0).
Proof. reflexivity. Qed.

Lemma scaled_one : scaled 1 = Some (scaled_int 1).
Proof. vm_compute. reflexivity. Qed.

Lemma scale_pos : 0 < scale.
Proof. apply Z.pow_pos_nonneg; lia. Qed.

(** The two-sided clamp of line 39 on a number [x]: its three cases. *)
Lemma clamp_cases (x : float) (a : ext) :
  scaled x = Some a ->
  let c := max2 0 (min2 1 x) in
  c = Analyze.clamp x 0 1 /\
  (c = 0%float \/ c = 1%float \/
   (c = x /\ (0 <? x)%float = true /\ (x <? 1)%float = true)).
Proof.
  intros Hx.
  pose proof (ltb_scaled x 1 _ _ Hx scaled_one) as L1.
  pose proof (ltb_scaled 0 x _ _ scaled_zero Hx) as L0.
  pose proof (leb_scaled x 0 _ _ Hx scaled_zero) as E0.
  pose proof (leb_scaled 1 x _ _ scaled_one Hx) as E1.
  pose proof scale_pos as Hs.
  assert (H01 : (0 <? 1)%float = true) by reflexivity.
  unfold max2, min2, Analyze.clamp. cbv zeta.
  rewrite E0, E1, L1.
  destruct a as [ | v | ]; unfold ext_ltb, ext_leb, scaled_int in *;
    cbn [ext_compare] in *.
  - rewrite L0. auto.
  - destruct (Z.compare_spec v (1 * scale)) as [Hv | Hv | Hv];
      destruct (Z.compare_spec v 0) as [Hv0 | Hv0 | Hv0]; try lia;
      rewrite ?H01, ?L0;
      destruct (Z.compare_spec 0 v); try lia;
      destruct (Z.compare_spec (1 * scale) v); try lia; auto 8.
  - rewrite H01. auto.
Qed.

(** The clamp of line 39 on a NaN: [min(1.0, nan)] keeps [1.0]. *)
Lemma clamp_nan (x : float) : scaled x = None -> max2 0 (min2 1 x) = 1%float.
Proof.
  intros Hx. unfold max2, min2. now rewrite (ltb_nan_l x 1 Hx).
Qed.

(** Whatever double [x] is, the clamp of line 39 lies in [[0, 1]]. *)
Lemma clamp_unit_bounds (x : float) :
  (0 <=? max2 0 (min2 1 x))%float = true /\
  (max2 0 (min2 1 x) <=? 1)%float = true.
Proof.
  destruct (scaled x) as [a | ] eqn:Ha.
  - destruct (clamp_cases x a Ha) as [_ Hc]. cbv zeta in Hc.
    destruct Hc as [-> | [-> | (-> & H0 & H1)]];
      split; try reflexivity; now apply ltb_leb.
  - rewrite (clamp_nan x Ha). split; reflexivity.
Qed.

Lemma Prim2SF_06 : Prim2SF 0.6 = S754_finite false 5404319552844595 (-53).
Proof. vm_compute. reflexivity. Qed.

Lemma Prim2SF_03 : Prim2SF 0.3 = S754_finite false 5404319552844595 (-54).
Proof. vm_compute. reflexivity. Qed.

Lemma Prim2SF_01 : Prim2SF 0.1 = S754_finite false 7205759403792794 (-56).
Proof. vm_compute. reflexivity. Qed.

(** On finite scores the weighted sum of line 34 is a number: the
    products by 0.6 and 0.1 cannot overflow, so neither the sum nor the
    difference meets two infinities. *)
Lemma weighted_not_nan (ev : EvaluationResult) :
  is_finite (performance ev) = true ->
  is_finite (novelty ev) = true ->
  is_finite (complexity ev) = true ->
  is_nan (Analyze.weighted ev) = false.
Proof.
  intros Fp Fn Fc. unfold Analyze.weighted.
  rewrite is_nan_SF, sub_spec, add_spec, !mul_spec.
  rewrite Prim2SF_06, Prim2SF_03, Prim2SF_01.
  unfold SF64sub, SF64add, SF64mul.
  apply SFsub_finite_not_nan; [apply SFadd_finite_not_nan|].
  - apply SFmul_const_finite;
      [vm_compute; discriminate | lia | apply Prim2SF_valid | now apply is_finite_SF].
  - apply SFmul_finite_not_nan; [reflexivity | now apply is_finite_SF].
  - apply SFmul_const_finite;
      [vm_compute; discriminate | lia | apply Prim2SF_valid | now apply is_finite_SF].
Qed.

Section Analyzer.

Variable format_2f : float -> string.
Variable py_str : Py.value -> string.

(** C1. For every configuration and every score set, the composite score
    of the report lies in [[0,1]], whatever doubles the three scores are
    (out of range, negative, infinite or NaN). For finite scores, and
    whenever the weighted sum
    [0.6*performance + 0.3*novelty - 0.1*complexity] is a number, the
    composite score is the clamp of that sum to [[0,1]]; it is [1.0] when
    the sum is a NaN. *)
Theorem analyze_composite_clamped (arch : Py.dict) (ev : EvaluationResult) :
  let x := (0.6 * performance ev + 0.3 * novelty ev - 0.1 * complexity ev)%float in
  let c := Analyze.composite_score (Analyze.analyze format_2f py_str arch ev) in
  (0 <=? c)%float = true /\ (c <=? 1)%float = true /\
  (is_finite (performance ev) = true -> is_finite (novelty ev) = true ->
   is_finite (complexity ev) = true -> c = Analyze.clamp x 0 1) /\
  (is_nan x = false -> c = Analyze.clamp x 0 1) /\
  (is_nan x = true -> c = 1%float).
Proof.
  cbv zeta. cbn [Analyze.analyze Analyze.composite_score].
  pose proof (weighted_not_nan ev) as Hfin.
  fold (Analyze.weighted ev). set (x := Analyze.weighted ev) in *.
  destruct (clamp_unit_bounds x) as [Hlo Hhi].
  split; [exact Hlo|]. split; [exact Hhi|].
  assert (Hnum : is_nan x = false -> max2 0 (min2 1 x) = Analyze.clamp x 0 1).
  { intros Hn. apply is_nan_scaled in Hn as [a Ha].
    now destruct (clamp_cases x a Ha) as [Heq _]. }
  split; [auto|]. split; [exact Hnum|].
  intros Hn. apply clamp_nan.
  destruct (scaled x) eqn:E; [|reflexivity].
  assert (is_nan x = false) by (apply is_nan_scaled; eauto). congruence.
Qed.

End Analyzer.

(** The composite score of the finite scores [performance = 2.5],
    [novelty = -3.0], [complexity = 0.25], whose weighted sum is 0.575. *)
Lemma analyze_composite_clamped_witness :
  Analyze.composite_score
    (Analyze.analyze (fun _ => EmptyString) (fun _ => EmptyString)
       [("id", Py.VStr "arch_0000001")]
       (mkEvaluationResult 2.5 (-3.0) 0.25 (Py.VStr "fallback")))
  = Analyze.clamp (0.6 * 2.5 + 0.3 * (-3.0) - 0.1 * 0.25) 0 1.
Proof.
  destruct (analyze_composite_clamped (fun _ => EmptyString) (fun _ => EmptyString)
              [("id", Py.VStr "arch_0000001")]
              (mkEvaluationResult 2.5 (-3.0) 0.25 (Py.VStr "fallback")))
    as (_ & _ & Hfinite & _).
  apply Hfinite; reflexivity.
Defined.

End AnalyzeFacts.

(** ** The result store *)

Module DatabaseFacts.
Import Py Database PyFloat PyFloatFacts.

Ltac ext_order :=
  unfold ext_ltb, ext_leb in *;
  repeat match goal with a : ext |- _ => destruct a end;
  cbn [ext_compare] in *;
  repeat match goal with
         | |- context [?x ?= ?y] => destruct (Z.compare_spec x y)
         | H : context [?x ?= ?y] |- _ => destruct (Z.compare_spec x y)
         end;
  try discriminate; try reflexivity; try lia.

Lemma ext_leb_refl (a : ext) : ext_leb a a = true.
Proof. ext_order. Qed.

Lemma ext_ltb_leb (a b : ext) : ext_ltb a b = true -> ext_leb a b = true.
Proof. ext_order. Qed.

Lemma ext_not_ltb_leb (a b : ext) : ext_ltb a b = false -> ext_leb b a = true.
Proof. ext_order. Qed.

Lemma ext_ltb_not_leb (a b : ext) :
  ext_ltb a b = true -> ext_leb b a = true -> False.
Proof. ext_order. Qed.

Lemma ext_leb_ltb_trans (a b c : ext) :
  ext_leb a b = true -> ext_ltb b c = true -> ext_ltb a c = true.
Proof. ext_order. Qed.

(** [x < y] on numbers is the order of their exact values. *)
Lemma num_ltb_val (x y : num) (a b : ext) :
  num_val x = Some a -> num_val y = Some b -> num_ltb x y = ext_ltb a b.
Proof.
  intros Hx Hy. destruct x as [p | f], y as [q | g]; cbn [num_ltb].
  - cbn in Hx, Hy. injection Hx as <-. injection Hy as <-.
    unfold ext_ltb, scaled_int. cbn [ext_compare].
    pose proof (Z.pow_pos_nonneg 2 1074 ltac:(lia) ltac:(lia)) as Hs.
    fold scale in Hs.
    destruct (Z.ltb_spec p q); destruct (Z.compare_spec (p * scale) (q * scale));
      try reflexivity; nia.
  - now rewrite Hx, Hy.
  - now rewrite Hx, Hy.
  - now apply ltb_scaled.
Qed.

(** A ranked record has a number as its key, of that exact value. *)
Lemma key_rank (x : dict) (r : ext) :
  rank x = Some r -> exists n, as_num (key x) = Some n /\ num_val n = Some r.
Proof.
  unfold rank, key, dict_get_default.
  destruct (dict_get x "composite_score") as [v | ].
  - destruct (as_num v) as [n | ]; [eauto | discriminate].
  - intros [= <-]. exists (NInt 0). split; reflexivity.
Qed.

Lemma py_gt_rank (item m : dict) (ri rm : ext) :
  rank item = Some ri -> rank m = Some rm ->
  py_gt (key item) (key m) = Ok (ext_ltb rm ri).
Proof.
  intros Hi Hm.
  apply key_rank in Hi as (ni & Ei & Vi). apply key_rank in Hm as (nm & Em & Vm).
  unfold py_gt. rewrite Ei, Em. unfold num_gtb.
  now rewrite (num_ltb_val nm ni rm ri Vm Vi).
Qed.

Lemma first_max_snoc_gt (seen : list dict) (i : nat) (m item : dict) (ri rm : ext) :
  first_max seen i m -> rank m = Some rm -> rank item = Some ri ->
  ext_ltb rm ri = true ->
  first_max (seen ++ [item]) (length seen) item.
Proof.
  intros [Hm Hmax] Rm Ri Hgt. split.
  - now rewrite list_lookup_middle.
  - intros j e re rb Hj Re Rb. rewrite Ri in Rb. injection Rb as <-.
    destruct (decide (j < length seen)%nat) as [Hlt | Hge].
    + rewrite lookup_app_l in Hj by exact Hlt.
      destruct (Hmax j e re rm Hj Re Rm) as [Hle _].
      assert (ext_ltb re ri = true) by (eapply ext_leb_ltb_trans; eauto).
      split; [now apply ext_ltb_leb | auto].
    + rewrite lookup_app_r in Hj by lia.
      destruct (j - length seen)%nat eqn:E; [|now destruct n].
      cbn in Hj. injection Hj as <-. rewrite Ri in Re. injection Re as <-.
      split; [apply ext_leb_refl | lia].
Qed.

Lemma first_max_snoc_le (seen : list dict) (i : nat) (m item : dict) (ri rm : ext) :
  first_max seen i m -> rank m = Some rm -> rank item = Some ri ->
  ext_ltb rm ri = false ->
  first_max (seen ++ [item]) i m.
Proof.
  intros [Hm Hmax] Rm Ri Hgt.
  pose proof (lookup_lt_Some _ _ _ Hm) as Hi. split.
  - now rewrite lookup_app_l.
  - intros j e re rb Hj Re Rb. rewrite Rm in Rb. injection Rb as <-.
    destruct (decide (j < length seen)%nat) as [Hlt | Hge].
    + rewrite lookup_app_l in Hj by exact Hlt. eauto.
    + rewrite lookup_app_r in Hj by lia.
      destruct (j - length seen)%nat eqn:E; [|now destruct n].
      cbn in Hj. injection Hj as <-. rewrite Ri in Re. injection Re as <-.
      split; [now apply ext_not_ltb_leb | lia].
Qed.

(** The loop of [max]: from a first maximum of what was seen to a first
    maximum of the whole list. *)
Lemma max_loop_first_max (rest seen : list dict) (i : nat) (m : dict) :
  (forall e, e ∈ seen ++ rest -> is_Some (rank e)) ->
  first_max seen i m ->
  exists i' b, max_loop m (key m) rest = Ok b /\ first_max (seen ++ rest) i' b.
Proof.
  revert seen i m. induction rest as [ | item rest IH]; intros seen i m Hr Hfm.
  - exists i, m. rewrite app_nil_r. split; [reflexivity | exact Hfm].
  - assert (Hm : m ∈ seen ++ item :: rest).
    { apply elem_of_app. left. apply list_elem_of_lookup. exists i. apply Hfm. }
    destruct (Hr m Hm) as [rm Rm].
    destruct (Hr item) as [ri Ri]; [apply elem_of_app; right; left|].
    cbn [max_loop]. rewrite (py_gt_rank item m ri rm Ri Rm). cbn [rbind].
    replace (seen ++ item :: rest) with ((seen ++ [item]) ++ rest) in *
      by now rewrite <- app_assoc.
    destruct (ext_ltb rm ri) eqn:Hgt.
    + apply (IH (seen ++ [item]) (length seen) item Hr).
      eapply first_max_snoc_gt; eauto.
    + apply (IH (seen ++ [item]) i m Hr).
      eapply first_max_snoc_le; eauto.
Qed.

(** On a history whose stored scores are numbers, [sample_parent] returns
    the architecture entry of the first record of maximal rank, or the
    default of lines 65-69 when that record has none. *)
Lemma sample_parent_first_max (data : history) :
  data <> [] ->
  (forall e, e ∈ data -> is_Some (rank e)) ->
  exists i b,
    first_max data i b /\
    sample_parent data
    = Ok (dict_get_default b "architecture" (VDict default_architecture)).
Proof.
  intros Hne Hr. destruct data as [ | x rest]; [congruence|].
  destruct (Hr x ltac:(left)) as [rx Rx].
  destruct (max_loop_first_max rest [x] 0%nat x Hr) as (i & b & Hb & Hfm).
  { split; [reflexivity|]. intros [ | j] e re rb Hj Re Rb; [|discriminate].
    cbn in Hj. injection Hj as <-. rewrite Re in Rb. injection Rb as <-.
    split; [apply ext_leb_refl | lia]. }
  exists i, b. split; [exact Hfm|].
  cbn [sample_parent max_by_key]. rewrite Hb. reflexivity.
Qed.

End DatabaseFacts.

(** ** dict lookups after an assignment *)

Module PyFacts.
Import Py.

Lemma dict_get_set_eq (d : dict) (k : string) (v : value) :
  dict_get (dict_set d k v) k = Some v.
Proof.
  induction d as [ | [k0 w] d IH]; cbn [dict_set dict_get].
  - now rewrite String.eqb_refl.
  - destruct (String.eqb_spec k0 k) as [-> | Hne]; cbn [dict_get].
    + now rewrite String.eqb_refl.
    + destruct (String.eqb_spec k0 k); [contradiction | exact IH].
Qed.

Lemma dict_get_set_ne (d : dict) (k k' : string) (v : value) :
  k <> k' -> dict_get (dict_set d k v) k' = dict_get d k'.
Proof.
  intros Hne. induction d as [ | [k0 w] d IH]; cbn [dict_set dict_get].
  - destruct (String.eqb_spec k k'); [contradiction | reflexivity].
  - destruct (String.eqb_spec k0 k) as [-> | Hk]; cbn [dict_get].
    + destruct (String.eqb_spec k k'); [contradiction | reflexivity].
    + destruct (String.eqb_spec k0 k'); [reflexivity | exact IH].
Qed.

End PyFacts.

(** ** The claims about the result store *)

Module StoreClaims.
Import Py Database PyFloat PyFloatFacts PyFacts DatabaseFacts.

Lemma key_with_zero_score (x : dict) : key (with_zero_score x) = key x.
Proof.
  unfold with_zero_score, key, dict_get_default, dict_contains.
  destruct (dict_get x "composite_score") eqn:E; [now rewrite E|].
  now rewrite dict_get_set_eq.
Qed.

Lemma architecture_with_zero_score (x : dict) (v : value) :
  dict_get_default (with_zero_score x) "architecture" v
  = dict_get_default x "architecture" v.
Proof.
  unfold with_zero_score, dict_get_default.
  destruct (dict_contains x "composite_score"); [reflexivity|].
  now rewrite dict_get_set_ne.
Qed.

Lemma max_loop_with_zero_score (rest : list dict) (m : dict) :
  max_loop (with_zero_score m) (key (with_zero_score m)) (map with_zero_score rest)
  = match max_loop m (key m) rest with
    | Ok b => Ok (with_zero_score b)
    | Raise e => Raise e
    end.
Proof.
  revert m. induction rest as [ | item rest IH]; intros m; [reflexivity|].
  cbn [map max_loop]. rewrite !key_with_zero_score.
  destruct (py_gt (key item) (key m)) as [[ | ] | e]; cbn [rbind].
  - specialize (IH item). now rewrite key_with_zero_score in IH.
  - specialize (IH m). now rewrite key_with_zero_score in IH.
  - reflexivity.
Qed.

Lemma sample_parent_with_zero_score (data : history) :
  sample_parent (map with_zero_score data) = sample_parent data.
Proof.
  destruct data as [ | x rest]; [reflexivity|].
  cbn [map sample_parent max_by_key]. rewrite max_loop_with_zero_score.
  destruct (max_loop x (key x) rest) as [b | e]; cbn [rbind]; [|reflexivity].
  now rewrite architecture_with_zero_score.
Qed.

(** C2. On a non-empty history whose records hold an architecture and a
    numeric composite score, [sample_parent] returns the architecture
    entry of a record whose score no record of the history exceeds and
    that every earlier record is strictly below (first seen wins a tie).
    In particular after [save_result] of a report of composite score 0.9
    and then of one of composite score 0.3 on the empty history, it
    returns the first report's architecture. *)
Theorem sample_parent_returns_first_best :
  (forall data : history,
      data <> [] ->
      (forall e, e ∈ data ->
         is_Some (dict_get e "architecture") /\
         is_Some (dict_get e "composite_score") /\ is_Some (rank e)) ->
      exists (i : nat) (b : dict) (arch : value),
        first_max data i b /\
        dict_get b "architecture" = Some arch /\
        sample_parent data = Ok arch)
  /\
  (forall r1 r2 : Analyze.AnalysisReport,
      Analyze.composite_score r1 = 0.9%float ->
      Analyze.composite_score r2 = 0.3%float ->
      sample_parent (save_result r2 (save_result r1 []))
      = Ok (VDict (Analyze.architecture r1))).
Proof.
  split.
  - intros data Hne Hwf.
    destruct (sample_parent_first_max data Hne) as (i & b & Hfm & Hs).
    { intros e He. apply (Hwf e He). }
    assert (Hb : b ∈ data) by (apply list_elem_of_lookup; exists i; apply Hfm).
    destruct (Hwf b Hb) as ([arch Ha] & _).
    exists i, b, arch. split; [exact Hfm|]. split; [exact Ha|].
    rewrite Hs. unfold dict_get_default. now rewrite Ha.
  - intros [a1 e1 c1 s1] [a2 e2 c2 s2]. cbn [Analyze.composite_score].
    intros -> ->. reflexivity.
Qed.

(** A history of three records with a tie for the best score: the first
    of the two tied records is returned. *)
Lemma sample_parent_returns_first_best_witness :
  exists (i : nat) (b : dict) (arch : value),
    first_max
      [[("architecture", VStr "a"); ("composite_score", VFloat 0.5)];
       [("architecture", VStr "b"); ("composite_score", VFloat 0.9)];
       [("architecture", VStr "c"); ("composite_score", VInt 0)];
       [("architecture", VStr "d"); ("composite_score", VFloat 0.9)]] i b /\
    dict_get b "architecture" = Some arch /\
    sample_parent
      [[("architecture", VStr "a"); ("composite_score", VFloat 0.5)];
       [("architecture", VStr "b"); ("composite_score", VFloat 0.9)];
       [("architecture", VStr "c"); ("composite_score", VInt 0)];
       [("architecture", VStr "d"); ("composite_score", VFloat 0.9)]] = Ok arch.
Proof.
  apply (proj1 sample_parent_returns_first_best).
  - discriminate.
  - intros e He.
    repeat (apply elem_of_cons in He as [-> | He]);
      [| | | | now apply elem_of_nil in He];
      (split; [eexists; reflexivity|]; split; eexists; vm_compute; reflexivity).
Defined.

(** C5, as the code has it. On the empty history [sample_parent] returns,
    without failing, the baseline of lines 56-61: the three parameters
    512, 6 and 8 together with the id ['baseline']. *)
Theorem sample_parent_empty_baseline :
  sample_parent []
  = Ok (VDict [("id", VStr "baseline"); ("hidden_size", VInt 512);
               ("num_layers", VInt 6); ("num_heads", VInt 8)]).
Proof. reflexivity. Qed.

(** C5, as stated, fails: the configuration returned for the empty history
    carries an id, so it is not the three-parameter baseline. *)
Lemma sample_parent_empty_carries_id :
  exists d : dict,
    sample_parent [] = Ok (VDict d) /\
    dict_get d "id" = Some (VStr "baseline") /\
    d <> [("hidden_size", VInt 512); ("num_layers", VInt 6); ("num_heads", VInt 8)].
Proof.
  exists baseline. split; [reflexivity|]. split; [reflexivity|]. discriminate.
Qed.

(** C10. On a non-empty history whose records may lack fields, and whose
    stored scores are numbers, [sample_parent] returns without raising:
    the result is the architecture entry of the first record of maximal
    rank, a record without a composite score ranking as 0 (the same
    history with an explicit score of 0 in those records gives the same
    result), or the three-parameter default, which has no id, when that
    record has no architecture entry. *)
Theorem sample_parent_missing_fields (data : history) :
  data <> [] ->
  (forall e v, e ∈ data -> dict_get e "composite_score" = Some v ->
     exists n a, as_num v = Some n /\ num_val n = Some a) ->
  exists (i : nat) (b : dict),
    first_max data i b /\
    sample_parent data
    = Ok (match dict_get b "architecture" with
          | Some arch => arch
          | None => VDict [("hidden_size", VInt 512); ("num_layers", VInt 6);
                           ("num_heads", VInt 8)]
          end) /\
    (forall e, e ∈ data -> dict_get e "composite_score" = None ->
       rank e = Some (scaled_int 0)) /\
    sample_parent (map with_zero_score data) = sample_parent data.
Proof.
  intros Hne Hnum.
  destruct (sample_parent_first_max data Hne) as (i & b & Hfm & Hs).
  { intros e He. unfold rank.
    destruct (dict_get e "composite_score") as [v | ] eqn:E; [|eauto].
    destruct (Hnum e v He E) as (n & a & -> & ->). eauto. }
  exists i, b. split; [exact Hfm|]. split; [exact Hs|]. split.
  - intros e _ E. unfold rank. now rewrite E.
  - apply sample_parent_with_zero_score.
Qed.

(** A history whose best record (rank 0, by default) has no architecture
    and whose other record has a negative score. *)
Lemma sample_parent_missing_fields_witness :
  exists (i : nat) (b : dict),
    first_max
      [[("architecture", VStr "a"); ("composite_score", VFloat (-0.5))];
       [("summary", VStr "no score, no architecture")]] i b /\
    sample_parent
      [[("architecture", VStr "a"); ("composite_score", VFloat (-0.5))];
       [("summary", VStr "no score, no architecture")]]
    = Ok (match dict_get b "architecture" with
          | Some arch => arch
          | None => VDict [("hidden_size", VInt 512); ("num_layers", VInt 6);
                           ("num_heads", VInt 8)]
          end) /\
    (forall e,
       e ∈ [[("architecture", VStr "a"); ("composite_score", VFloat (-0.5))];
            [("summary", VStr "no score, no architecture")]] ->
       dict_get e "composite_score" = None ->
       rank e = Some (scaled_int 0)) /\
    sample_parent
      (map with_zero_score
         [[("architecture", VStr "a"); ("composite_score", VFloat (-0.5))];
          [("summary", VStr "no score, no architecture")]])
    = sample_parent
        [[("architecture", VStr "a"); ("composite_score", VFloat (-0.5))];
         [("summary", VStr "no score, no architecture")]].
Proof.
  apply sample_parent_missing_fields.
  - discriminate.
  - intros e v He Hv.
    repeat (apply elem_of_cons in He as [-> | He]);
      [| | now apply elem_of_nil in He].
    + injection Hv as <-. eexists _, _.
      split; [reflexivity|]. vm_compute. reflexivity.
    + discriminate.
Defined.

End StoreClaims.

(** ** The proposer *)

Module EvolveFacts.
Import Py Evolve PyFloat PyFloatFacts FloatArithFacts PyFacts DatabaseFacts.

(** [as_num] is defined exactly on the instances of [(int, float)]. *)
Lemma as_num_isinstance (v : value) :
  isinstance_int_float v = true <-> is_Some (as_num v).
Proof.
  destruct v; cbn; split; intros Hv; try reflexivity; try discriminate;
    try (eexists; reflexivity); destruct Hv; discriminate.
Qed.

(** Lines 58-60: whatever number the sum is (a NaN and the infinities
    included), clamping and [int()] return an integer of the range. *)
Lemma clamp_int_in_range (low high : Z) (new_value : num) :
  0 <= low <= high ->
  exists z, num_int (py_max (NInt low) (py_min (NInt high) new_value)) = Ok z /\
            low <= z <= high.
Proof.
  intros Hlh. destruct new_value as [x | f].
  - unfold py_max, py_min, num_gtb. cbn [num_ltb].
    destruct (Z.ltb_spec x high); cbn [num_ltb];
      [destruct (Z.ltb_spec low x) | destruct (Z.ltb_spec low high)];
      cbn [num_int]; eexists; (split; [reflexivity | lia]).
  - unfold py_min. cbn [num_ltb num_val].
    destruct (scaled f) as [a | ] eqn:Ha.
    + destruct (ext_ltb a (scaled_int high)) eqn:Hhi.
      * unfold py_max, num_gtb. cbn [num_ltb num_val]. rewrite Ha.
        destruct (ext_ltb (scaled_int low) a) eqn:Hlo.
        -- destruct (trunc_between f a low high ltac:(lia) Ha Hlo Hhi)
             as (n & Hn & Hr).
           exists n. cbn [num_int]. rewrite Hn. split; [reflexivity | lia].
        -- exists low. split; [reflexivity | lia].
      * unfold py_max, num_gtb. cbn [num_ltb].
        destruct (Z.ltb_spec low high); eexists; (split; [reflexivity | lia]).
    + unfold py_max, num_gtb. cbn [num_ltb].
      destruct (Z.ltb_spec low high); eexists; (split; [reflexivity | lia]).
Qed.

Lemma numeric_keys_cases (key : string) (low high : Z) :
  In (key, (low, high)) numeric_keys ->
  (key = "hidden_size" /\ low = 32 /\ high = 2048) \/
  (key = "num_layers" /\ low = 1 /\ high = 48) \/
  (key = "num_heads" /\ low = 1 /\ high = 32).
Proof.
  cbn. intros [E | [E | [E | []]]]; injection E as <- <- <-; auto.
Qed.

(** Line 63 on the three ranges. *)
Lemma midpoint_in_range (key : string) (low high : Z) :
  In (key, (low, high)) numeric_keys ->
  exists z, midpoint low high = Ok z /\ low <= z <= high.
Proof.
  intros Hk. apply numeric_keys_cases in Hk
    as [(-> & -> & ->) | [(-> & -> & ->) | (-> & -> & ->)]].
  - exists 1040. split; [vm_compute; reflexivity | lia].
  - exists 24. split; [vm_compute; reflexivity | lia].
  - exists 16. split; [vm_compute; reflexivity | lia].
Qed.

(** The three parameters of a dict after the four assignments. *)
Lemma evolved_in_range (d : dict) (z1 z2 z3 : Z) (tag : value)
    (key : string) (low high : Z) :
  32 <= z1 <= 2048 /\ 1 <= z2 <= 48 /\ 1 <= z3 <= 32 ->
  In (key, (low, high)) numeric_keys ->
  exists z : Z,
    dict_get
      (dict_set (dict_set (dict_set (dict_set d "hidden_size" (VInt z1))
                             "num_layers" (VInt z2))
                   "num_heads" (VInt z3))
         "id" tag) key = Some (VInt z) /\
    low <= z <= high.
Proof.
  intros (R1 & R2 & R3) Hk.
  apply numeric_keys_cases in Hk
    as [(-> & -> & ->) | [(-> & -> & ->) | (-> & -> & ->)]].
  - exists z1. split; [|exact R1].
    rewrite !dict_get_set_ne by discriminate. apply dict_get_set_eq.
  - exists z2. split; [|exact R2].
    rewrite !dict_get_set_ne by discriminate. apply dict_get_set_eq.
  - exists z3. split; [|exact R3].
    rewrite !dict_get_set_ne by discriminate. apply dict_get_set_eq.
Qed.

(** The noise of line 57 is the truncation of a finite double, so it
    converts back to a double when it is added to a float parameter. *)
Lemma noise_of_convertible (g : float) (range_size noise : Z) :
  noise_of g range_size = Ok noise -> is_Some (PyFloat.of_int noise).
Proof.
  unfold noise_of, num_mul, num_float, rbind.
  destruct (PyFloat.of_int range_size) as [w | ]; [|discriminate].
  cbn [num_int]. destruct (trunc (g * w)) as [n | ] eqn:E; [|discriminate].
  intros [= <-]. eapply of_int_trunc; eauto.
Qed.

Section WithRandom.

Context {G : Type} `{RandomModule G}.
Hypothesis gauss_usable : GaussUsable G.

(** One turn of the loop: the candidate's entry for [key] becomes an
    integer of the range, nothing else in the heap changes, and no draw is
    made when the parameter is absent or not a number. *)
Lemma mutate_spec (self : ArchitectureEvolver) (c : ref) (h : list dict) (s : G)
    (d : dict) (key : string) (low high : Z) :
  In (key, (low, high)) numeric_keys ->
  h !! c = Some d ->
  exists (z : Z) (s' : G),
    mutate self c (key, (low, high)) (mkWorld h s)
    = Ok (tt, mkWorld (<[c := dict_set d key (VInt z)]> h) s') /\
    low <= z <= high /\
    (absent_or_not_numeric d key -> midpoint low high = Ok z /\ s' = s).
Proof.
  intros Hk Hc. unfold absent_or_not_numeric.
  assert (Hlh : 0 <= low <= high).
  { apply numeric_keys_cases in Hk
      as [(_ & -> & ->) | [(_ & -> & ->) | (_ & -> & ->)]]; lia. }
  destruct (midpoint_in_range key low high Hk) as (zm & Hzm & Hrm).
  unfold mutate, bind, deref. cbn [heap rng]. rewrite Hc.
  destruct (dict_get d key) as [v | ] eqn:Hv.
  - destruct (as_num v) as [n | ] eqn:Hn.
    + unfold draw. cbn [heap rng].
      pose proof (gauss_usable 0%float (noise_scale self) s key low high Hk)
        as [noise Hnoise].
      destruct (gauss 0 (noise_scale self) s) as [g s'] eqn:Hg.
      cbn [fst] in Hnoise. unfold lift at 1. rewrite Hnoise.
      destruct (noise_of_convertible _ _ _ Hnoise) as [fn Hfn].
      assert (Hadd : exists nv, num_add n (NInt noise) = Ok nv).
      { destruct n as [x | f]; cbn [num_add num_float rbind]; [eauto|].
        rewrite Hfn. cbn [rbind]. eauto. }
      destruct Hadd as [nv Hnv]. unfold lift at 1. rewrite Hnv.
      destruct (clamp_int_in_range low high nv Hlh) as (z & Hz & Hr).
      unfold lift. rewrite Hz. unfold setitem. cbn [heap rng]. rewrite Hc.
      exists z, s'. split; [reflexivity|]. split; [exact Hr|].
      intros Hni. assert (is_Some (as_num v)) as Hs by eauto.
      apply as_num_isinstance in Hs. congruence.
    + unfold lift. rewrite Hzm. unfold setitem. cbn [heap rng]. rewrite Hc.
      exists zm, s. auto.
  - unfold lift. rewrite Hzm. unfold setitem. cbn [heap rng]. rewrite Hc.
    exists zm, s. auto.
Qed.

Lemma bind_ok {A B : Type} (c : M G A) (k : A -> M G B) (w w' : world G) (a : A) :
  c w = Ok (a, w') -> bind c k w = k a w'.
Proof. intros Hc. unfold bind. now rewrite Hc. Qed.

Lemma insert_last (h : list dict) (x y : dict) :
  <[length h := x]> (h ++ [y]) = h ++ [x].
Proof.
  rewrite insert_app_r_alt by lia. now rewrite Nat.sub_diag.
Qed.

(** The loop of lines 53-63 on a candidate that is the last dict of the
    heap: only that dict changes, by three assignments. *)
Lemma loop_spec (self : ArchitectureEvolver) (h : list dict) (s : G) (d : dict) :
  exists (z1 z2 z3 : Z) (s3 : G),
    for_each numeric_keys (mutate self (length h)) (mkWorld (h ++ [d]) s)
    = Ok (tt, mkWorld
                (h ++ [dict_set (dict_set (dict_set d "hidden_size" (VInt z1))
                                   "num_layers" (VInt z2))
                         "num_heads" (VInt z3)]) s3) /\
    (32 <= z1 <= 2048 /\ 1 <= z2 <= 48 /\ 1 <= z3 <= 32) /\
    (absent_or_not_numeric d "hidden_size" -> z1 = 1040) /\
    (absent_or_not_numeric d "num_layers" -> z2 = 24) /\
    (absent_or_not_numeric d "num_heads" -> z3 = 16).
Proof.
  destruct (mutate_spec self (length h) (h ++ [d]) s d "hidden_size" 32 2048)
    as (z1 & s1 & E1 & R1 & M1); [cbn; auto | apply list_lookup_middle; reflexivity |].
  rewrite insert_last in E1. set (d1 := dict_set d "hidden_size" (VInt z1)) in *.
  destruct (mutate_spec self (length h) (h ++ [d1]) s1 d1 "num_layers" 1 48)
    as (z2 & s2 & E2 & R2 & M2); [cbn; auto | apply list_lookup_middle; reflexivity |].
  rewrite insert_last in E2. set (d2 := dict_set d1 "num_layers" (VInt z2)) in *.
  destruct (mutate_spec self (length h) (h ++ [d2]) s2 d2 "num_heads" 1 32)
    as (z3 & s3 & E3 & R3 & M3); [cbn; auto | apply list_lookup_middle; reflexivity |].
  rewrite insert_last in E3.
  exists z1, z2, z3, s3. split.
  - cbn [for_each numeric_keys].
    rewrite (bind_ok _ _ _ _ _ E1), (bind_ok _ _ _ _ _ E2), (bind_ok _ _ _ _ _ E3).
    reflexivity.
  - split; [auto|]. unfold absent_or_not_numeric in *. split; [|split].
    + intros Ha. destruct (M1 Ha) as [Hm _].
      vm_compute in Hm. now injection Hm.
    + intros Ha. destruct M2 as [Hm _].
      { unfold d1. now rewrite dict_get_set_ne. }
      vm_compute in Hm. now injection Hm.
    + intros Ha. destruct M3 as [Hm _].
      { unfold d2, d1. now rewrite !dict_get_set_ne. }
      vm_compute in Hm. now injection Hm.
Qed.

(** [evolve] on a parent [d] behind the reference [p]: the heap gains one
    dict, the candidate, which is [d] after four assignments; the id is
    the tag of a [randint] draw. *)
Lemma evolve_spec (self : ArchitectureEvolver) (h : list dict) (s : G)
    (p : ref) (d : dict) :
  h !! p = Some d ->
  exists (z1 z2 z3 r : Z) (s3 s' : G),
    evolve self p (mkWorld h s)
    = Ok (length h,
          mkWorld
            (h ++ [dict_set
                     (dict_set (dict_set (dict_set d "hidden_size" (VInt z1))
                                  "num_layers" (VInt z2))
                        "num_heads" (VInt z3))
                     "id" (VStr ("arch_" +:+ format_07d r))]) s') /\
    randint 0 10000000 s3 = (r, s') /\
    (32 <= z1 <= 2048 /\ 1 <= z2 <= 48 /\ 1 <= z3 <= 32) /\
    (absent_or_not_numeric d "hidden_size" -> z1 = 1040) /\
    (absent_or_not_numeric d "num_layers" -> z2 = 24) /\
    (absent_or_not_numeric d "num_heads" -> z3 = 16).
Proof.
  intros Hp.
  destruct (loop_spec self h s d) as (z1 & z2 & z3 & s3 & Hloop & Hrest).
  destruct (randint 0 10000000 s3) as [r s'] eqn:Hr.
  exists z1, z2, z3, r, s3, s'. split; [|split; [exact Hr | exact Hrest]].
  unfold evolve.
  assert (Hcopy : deepcopy p (mkWorld h s) = Ok (length h, mkWorld (h ++ [d]) s)).
  { unfold deepcopy. cbn [heap rng]. now rewrite Hp. }
  rewrite (bind_ok _ _ _ _ _ Hcopy), (bind_ok _ _ _ _ _ Hloop).
  unfold bind, draw, setitem, ret. cbn [heap rng]. rewrite Hr. cbn [heap rng].
  rewrite list_lookup_middle by reflexivity. now rewrite insert_last.
Qed.

(** C6. Whatever the parent holds for the three parameters (values out of
    range, floats, infinities and NaN included) and whatever the noise
    draws are, as long as [int()] accepts them once scaled ([gauss_usable]),
    [evolve] returns a candidate in which each of the three parameters is
    an integer of its closed range. *)
Theorem evolve_parameters_in_range (self : ArchitectureEvolver) (h : list dict)
    (s : G) (p : ref) (d : dict) :
  h !! p = Some d ->
  exists (c : ref) (w' : world G) (dc : dict),
    evolve self p (mkWorld h s) = Ok (c, w') /\
    heap w' !! c = Some dc /\
    forall (key : string) (low high : Z),
      In (key, (low, high)) numeric_keys ->
      exists z : Z, dict_get dc key = Some (VInt z) /\ low <= z <= high.
Proof.
  intros Hp.
  destruct (evolve_spec self h s p d Hp)
    as (z1 & z2 & z3 & r & s3 & s' & Hev & _ & (R1 & R2 & R3) & _).
  eexists _, _, _. split; [exact Hev|]. cbn [heap].
  split; [apply list_lookup_middle; reflexivity|].
  intros key low high Hk. now apply evolved_in_range.
Qed.

(** C4. A recognized parameter that the parent lacks, or holds as
    something that is not a number, is set in the candidate to the
    midpoint of its range under truncating division: 1040 for
    [hidden_size], 24 for [num_layers], 16 for [num_heads]. *)
Theorem evolve_repairs_to_midpoint (self : ArchitectureEvolver) (h : list dict)
    (s : G) (p : ref) (d : dict) :
  h !! p = Some d ->
  exists (c : ref) (w' : world G) (dc : dict),
    evolve self p (mkWorld h s) = Ok (c, w') /\
    heap w' !! c = Some dc /\
    (forall (key : string) (low high : Z),
        In (key, (low, high)) numeric_keys ->
        absent_or_not_numeric d key ->
        dict_get dc key = Some (VInt (Z.quot (low + high) 2))) /\
    (absent_or_not_numeric d "hidden_size" ->
     dict_get dc "hidden_size" = Some (VInt 1040)) /\
    (absent_or_not_numeric d "num_layers" ->
     dict_get dc "num_layers" = Some (VInt 24)) /\
    (absent_or_not_numeric d "num_heads" ->
     dict_get dc "num_heads" = Some (VInt 16)).
Proof.
  intros Hp.
  destruct (evolve_spec self h s p d Hp)
    as (z1 & z2 & z3 & r & s3 & s' & Hev & _ & _ & M1 & M2 & M3).
  eexists _, _, _. split; [exact Hev|]. cbn [heap].
  split; [apply list_lookup_middle; reflexivity|].
  assert (H1 : absent_or_not_numeric d "hidden_size" ->
               dict_get
                 (dict_set
                    (dict_set (dict_set (dict_set d "hidden_size" (VInt z1))
                                 "num_layers" (VInt z2))
                       "num_heads" (VInt z3))
                    "id" (VStr ("arch_" +:+ format_07d r))) "hidden_size"
               = Some (VInt 1040)).
  { intros Ha. rewrite (M1 Ha).
    rewrite !dict_get_set_ne by discriminate. apply dict_get_set_eq. }
  assert (H2 : absent_or_not_numeric d "num_layers" ->
               dict_get
                 (dict_set
                    (dict_set (dict_set (dict_set d "hidden_size" (VInt z1))
                                 "num_layers" (VInt z2))
                       "num_heads" (VInt z3))
                    "id" (VStr ("arch_" +:+ format_07d r))) "num_layers"
               = Some (VInt 24)).
  { intros Ha. rewrite (M2 Ha).
    rewrite !dict_get_set_ne by discriminate. apply dict_get_set_eq. }
  assert (H3 : absent_or_not_numeric d "num_heads" ->
               dict_get
                 (dict_set
                    (dict_set (dict_set (dict_set d "hidden_size" (VInt z1))
                                 "num_layers" (VInt z2))
                       "num_heads" (VInt z3))
                    "id" (VStr ("arch_" +:+ format_07d r))) "num_heads"
               = Some (VInt 16)).
  { intros Ha. rewrite (M3 Ha).
    rewrite !dict_get_set_ne by discriminate. apply dict_get_set_eq. }
  split; [|auto].
  intros key low high Hk Ha.
  apply numeric_keys_cases in Hk
    as [(-> & -> & ->) | [(-> & -> & ->) | (-> & -> & ->)]]; auto.
Qed.

(** C7. [evolve] works on a copy: the dict behind the parent reference,
    like every dict the heap held, is the same afterwards; the candidate
    is a new dict, and every key of the parent other than [hidden_size],
    [num_layers], [num_heads] and [id] has in it the parent's value. *)
Theorem evolve_leaves_parent_unchanged (self : ArchitectureEvolver)
    (h : list dict) (s : G) (p : ref) (d : dict) :
  h !! p = Some d ->
  exists (c : ref) (w' : world G) (dc : dict),
    evolve self p (mkWorld h s) = Ok (c, w') /\
    heap w' !! c = Some dc /\
    c <> p /\
    heap w' !! p = Some d /\
    (forall (r : ref) (d' : dict), h !! r = Some d' -> heap w' !! r = Some d') /\
    (forall key : string,
        key <> "hidden_size" -> key <> "num_layers" ->
        key <> "num_heads" -> key <> "id" ->
        dict_get dc key = dict_get d key).
Proof.
  intros Hp.
  destruct (evolve_spec self h s p d Hp)
    as (z1 & z2 & z3 & r & s3 & s' & Hev & _).
  pose proof (lookup_lt_Some _ _ _ Hp) as Hlt.
  eexists _, _, _. split; [exact Hev|]. cbn [heap].
  split; [apply list_lookup_middle; reflexivity|].
  split; [lia|]. split; [|split].
  - rewrite lookup_app_l by exact Hlt. exact Hp.
  - intros r0 d' Hr. rewrite lookup_app_l by (eapply lookup_lt_Some; eauto).
    exact Hr.
  - intros key K1 K2 K3 K4.
    now rewrite !dict_get_set_ne by congruence.
Qed.

(** C8, as the code has it. The candidate's id is the tag ['arch_']
    followed by the zero-padded decimal of one [randint(0, 10_000_000)]
    draw, whatever id the parent had; it differs from the parent's id
    when the parent has none or the store's ['baseline'], and coincides
    with it exactly when the parent's id is that same tag. *)
Theorem evolve_tags_with_drawn_id (self : ArchitectureEvolver) (h : list dict)
    (s : G) (p : ref) (d : dict) :
  h !! p = Some d ->
  exists (c : ref) (w' : world G) (dc : dict) (r : Z) (s3 : G),
    evolve self p (mkWorld h s) = Ok (c, w') /\
    heap w' !! c = Some dc /\
    randint 0 10000000 s3 = (r, rng w') /\
    dict_get dc "id" = Some (VStr ("arch_" +:+ format_07d r)) /\
    (dict_get d "id" = None \/ dict_get d "id" = Some (VStr "baseline") ->
     dict_get dc "id" <> dict_get d "id") /\
    (dict_get dc "id" = dict_get d "id" <->
     dict_get d "id" = Some (VStr ("arch_" +:+ format_07d r))).
Proof.
  intros Hp.
  destruct (evolve_spec self h s p d Hp)
    as (z1 & z2 & z3 & r & s3 & s' & Hev & Hr & _).
  eexists _, _, _, r, s3. split; [exact Hev|]. cbn [heap rng].
  split; [apply list_lookup_middle; reflexivity|].
  split; [exact Hr|]. rewrite dict_get_set_eq.
  split; [reflexivity|]. split.
  - intros [-> | ->]; discriminate.
  - split; intros E; now rewrite E.
Qed.

End WithRandom.

(** The constant generator with draws 0.05 and 5 is usable: the three
    noises are 100, 2 and 1. *)
Lemma constant_gauss_usable :
  @GaussUsable unit (constant_random 0.05 5 0.5).
Proof.
  intros mu sigma s key low high Hk. cbn [gauss constant_random fst].
  apply numeric_keys_cases in Hk
    as [(-> & -> & ->) | [(-> & -> & ->) | (-> & -> & ->)]].
  - exists 100. vm_compute. reflexivity.
  - exists 2. vm_compute. reflexivity.
  - exists 1. vm_compute. reflexivity.
Qed.

(** A parent far out of range, as a float, an infinity and a huge int. *)
Lemma evolve_parameters_in_range_witness :
  exists (c : ref) (w' : world unit) (dc : dict),
    @evolve unit (constant_random 0.05 5 0.5) default_evolver 0%nat
      (mkWorld [[("hidden_size", VFloat 99999.5); ("num_layers", VFloat neg_infinity);
                 ("num_heads", VInt (-1000000000000000000000))]] tt)
    = Ok (c, w') /\
    heap w' !! c = Some dc /\
    forall (key : string) (low high : Z),
      In (key, (low, high)) numeric_keys ->
      exists z : Z, dict_get dc key = Some (VInt z) /\ low <= z <= high.
Proof.
  exact (@evolve_parameters_in_range unit (constant_random 0.05 5 0.5)
           constant_gauss_usable default_evolver
           [[("hidden_size", VFloat 99999.5); ("num_layers", VFloat neg_infinity);
             ("num_heads", VInt (-1000000000000000000000))]] tt 0%nat
           [("hidden_size", VFloat 99999.5); ("num_layers", VFloat neg_infinity);
            ("num_heads", VInt (-1000000000000000000000))] eq_refl).
Defined.

(** A parent without [hidden_size], with a string for [num_layers] and
    [None] for [num_heads]. *)
Lemma evolve_repairs_to_midpoint_witness :
  exists (c : ref) (w' : world unit) (dc : dict),
    @evolve unit (constant_random 0.05 5 0.5) default_evolver 0%nat
      (mkWorld [[("num_layers", VStr "six"); ("num_heads", VNone)]] tt)
    = Ok (c, w') /\
    heap w' !! c = Some dc /\
    dict_get dc "hidden_size" = Some (VInt 1040) /\
    dict_get dc "num_layers" = Some (VInt 24) /\
    dict_get dc "num_heads" = Some (VInt 16).
Proof.
  destruct (@evolve_repairs_to_midpoint unit (constant_random 0.05 5 0.5)
              constant_gauss_usable default_evolver
              [[("num_layers", VStr "six"); ("num_heads", VNone)]] tt 0%nat
              [("num_layers", VStr "six"); ("num_heads", VNone)] eq_refl)
    as (c & w' & dc & Hev & Hc & _ & H1 & H2 & H3).
  exists c, w', dc. split; [exact Hev|]. split; [exact Hc|].
  split; [apply H1; exact I|]. split; [apply H2; reflexivity | apply H3; reflexivity].
Defined.

(** The store's baseline with one more key, evolved in a heap of two. *)
Lemma evolve_leaves_parent_unchanged_witness :
  exists (c : ref) (w' : world unit) (dc : dict),
    @evolve unit (constant_random 0.05 5 0.5) default_evolver 1%nat
      (mkWorld [Database.default_architecture;
                Database.baseline ++ [("activation", VStr "gelu")]] tt)
    = Ok (c, w') /\
    heap w' !! c = Some dc /\
    c <> 1%nat /\
    heap w' !! 1%nat = Some (Database.baseline ++ [("activation", VStr "gelu")]) /\
    (forall (r : ref) (d' : dict),
        [Database.default_architecture;
         Database.baseline ++ [("activation", VStr "gelu")]] !! r = Some d' ->
        heap w' !! r = Some d') /\
    (forall key : string,
        key <> "hidden_size" -> key <> "num_layers" ->
        key <> "num_heads" -> key <> "id" ->
        dict_get dc key
        = dict_get (Database.baseline ++ [("activation", VStr "gelu")]) key).
Proof.
  exact (@evolve_leaves_parent_unchanged unit (constant_random 0.05 5 0.5)
           constant_gauss_usable default_evolver
           [Database.default_architecture;
            Database.baseline ++ [("activation", VStr "gelu")]] tt 1%nat
           (Database.baseline ++ [("activation", VStr "gelu")]) eq_refl).
Defined.

(** The baseline evolved: the candidate's id is [arch_0000005]. *)
Lemma evolve_tags_with_drawn_id_witness :
  exists (c : ref) (w' : world unit) (dc : dict) (r : Z) (s3 : unit),
    @evolve unit (constant_random 0.05 5 0.5) default_evolver 0%nat
      (mkWorld [Database.baseline] tt) = Ok (c, w') /\
    heap w' !! c = Some dc /\
    @randint unit (constant_random 0.05 5 0.5) 0 10000000 s3 = (r, rng w') /\
    dict_get dc "id" = Some (VStr ("arch_" +:+ format_07d r)) /\
    (dict_get Database.baseline "id" = None \/
     dict_get Database.baseline "id" = Some (VStr "baseline") ->
     dict_get dc "id" <> dict_get Database.baseline "id") /\
    (dict_get dc "id" = dict_get Database.baseline "id" <->
     dict_get Database.baseline "id" = Some (VStr ("arch_" +:+ format_07d r))).
Proof.
  exact (@evolve_tags_with_drawn_id unit (constant_random 0.05 5 0.5)
           constant_gauss_usable default_evolver
           [Database.baseline] tt 0%nat Database.baseline eq_refl).
Defined.

(** C8, as stated, fails: a parent tagged [arch_0000005] and a [randint]
    draw of 5 give a candidate with the parent's own id. *)
Lemma evolve_can_repeat_parent_id :
  exists (c : ref) (w' : world unit) (dc : dict),
    @evolve unit (constant_random 0.05 5 0.5) default_evolver 0%nat
      (mkWorld [[("id", VStr "arch_0000005"); ("hidden_size", VInt 512);
                 ("num_layers", VInt 6); ("num_heads", VInt 8)]] tt)
    = Ok (c, w') /\
    heap w' !! c = Some dc /\
    dict_get dc "id" = Some (VStr "arch_0000005") /\
    dict_get dc "id"
    = dict_get [("id", VStr "arch_0000005"); ("hidden_size", VInt 512);
                ("num_layers", VInt 6); ("num_heads", VInt 8)] "id".
Proof.
  eexists _, _, _. split; [vm_compute; reflexivity|].
  split; [reflexivity|]. split; reflexivity.
Qed.

End EvolveFacts.

(** ** The advisory retrieval service *)

Module RagFacts.
Import Rag.

Lemma slice_to_nonneg {A : Type} (l : list A) (k : Z) :
  0 <= k -> slice_to l k = firstn (Z.to_nat k) l.
Proof.
  intros Hk. unfold slice_to. destruct (Z.leb_spec 0 k); [reflexivity | lia].
Qed.

(** The constructor never leaves the corpus empty. *)
Lemma init_corpus_nonempty (c : option (list string)) : corpus (init c) <> [].
Proof. destruct c as [[ | s c] | ]; discriminate. Qed.

(** C9, as the code has it. For a result count [top_k >= 0], [query]
    returns the first [top_k] of the matching sentences, in corpus order,
    and all of them when fewer match; when no sentence matches it returns
    the first [top_k] sentences of the corpus. So it returns
    [min top_k (number available)] sentences, all from the corpus, and
    at least one as soon as [top_k >= 1] and the corpus is not empty. *)
Theorem query_returns_up_to_top_k (self : RAGService) (question : string) (top_k : Z) :
  0 <= top_k ->
  let found := List.filter (matches (PyStr.lower question)) (corpus self) in
  let pool := match found with [] => corpus self | _ :: _ => found end in
  query self question top_k = firstn (Z.to_nat top_k) pool /\
  Z.of_nat (length (query self question top_k))
  = Z.min top_k (Z.of_nat (length pool)) /\
  (forall s, In s (query self question top_k) -> In s (corpus self)) /\
  (1 <= top_k -> corpus self <> [] -> query self question top_k <> []).
Proof.
  intros Hk found pool.
  assert (Hq : query self question top_k = firstn (Z.to_nat top_k) pool).
  { unfold query. fold found. subst pool.
    destruct found; now rewrite slice_to_nonneg. }
  assert (Hsub : forall s, In s pool -> In s (corpus self)).
  { subst pool. destruct found as [ | x l] eqn:E; [auto|].
    intros s Hs. rewrite <- E in Hs. unfold found in Hs.
    now apply List.filter_In in Hs as [Hs _]. }
  assert (Hne : corpus self <> [] -> pool <> []).
  { subst pool. destruct found; [auto | discriminate]. }
  rewrite Hq. split; [reflexivity|]. split; [|split].
  - rewrite List.length_firstn. lia.
  - intros s Hs. apply Hsub.
    rewrite <- (List.firstn_skipn (Z.to_nat top_k) pool).
    apply List.in_or_app. now left.
  - intros H1 Hc. specialize (Hne Hc).
    destruct pool as [ | x l]; [congruence|].
    destruct (Z.to_nat top_k) eqn:E; [lia | discriminate].
Qed.

(** Two sentences asked for on a question with two matching sentences. *)
Lemma query_returns_up_to_top_k_witness :
  Z.of_nat (length (query (init None) "layers and kernels" 2)) = 2.
Proof.
  pose proof (query_returns_up_to_top_k (init None) "layers and kernels" 2
                ltac:(lia)) as (_ & Hlen & _).
  rewrite Hlen. vm_compute. reflexivity.
Defined.

(** C9, as stated, fails: a question matching one sentence yields one
    sentence when two are asked for, and a result count of 0 yields the
    empty list from a corpus that is not empty. *)
Lemma query_can_return_fewer :
  length (query (init None) "softmax" 2) = 1%nat /\
  query (init None) "attention" 0 = [] /\
  length (corpus (init None)) = 3%nat.
Proof.
  split; [vm_compute; reflexivity|]. split; vm_compute; reflexivity.
Qed.

End RagFacts.

(** ** The scorer *)

Module EvaluateFacts.
Import Py Evaluate.

Section WithRandom.

Context {G : Type} `{RandomModule G}.
Hypothesis random_unit : RandomInUnit G.

(** The fallback score set: three successive draws, each in [[0, 1)],
    and the text received, or the marker when there is none. *)
Lemma fallback_spec (raw : value) (s : G) :
  let r := fst (fallback raw s) in
  let s1 := snd (random s) in
  let s2 := snd (random s1) in
  performance r = fst (random s) /\ novelty r = fst (random s1) /\
  complexity r = fst (random s2) /\ snd (fallback raw s) = snd (random s2) /\
  in_unit (performance r) /\ in_unit (novelty r) /\ in_unit (complexity r) /\
  raw_response r = (if truthy raw then raw else VStr "fallback").
Proof.
  cbv zeta. unfold fallback, in_unit.
  pose proof (random_unit s) as U1.
  destruct (random s) as [p s1]. cbn [fst snd] in *.
  pose proof (random_unit s1) as U2.
  destruct (random s1) as [n s2]. cbn [fst snd] in *.
  pose proof (random_unit s2) as U3.
  destruct (random s2) as [c s3]. cbn [fst snd performance novelty complexity raw_response] in *.
  repeat split; try reflexivity; tauto.
Qed.

(** C3. [evaluate] is total: it returns a score set on every candidate.
    With the flag off the call is skipped and the result is the fallback
    with the marker ['fallback']; with the flag on, every exception of the
    [try] block gives the fallback with the text received, or the marker
    when nothing (or an empty text) was received. A network error, a bad
    status, an undecodable body and a missing ['response'] field fail
    before any text is received; a parse error fails after. The fallback
    holds three successive draws of [random.random()], each in [[0, 1)]. *)
Theorem evaluate_degrades_to_fallback (env : environment)
    (self : ArchitectureEvaluator) (architecture : dict) (s : G) :
  let prompt := prompt_of env architecture in
  (truthy (use_local self) = false ->
   evaluate env self architecture s = fallback (VStr "") s /\
   raw_response (fst (evaluate env self architecture s)) = VStr "fallback") /\
  (forall (raw : value) (e : exn),
      truthy (use_local self) = true ->
      try_block env self prompt = (raw, Raise e) ->
      evaluate env self architecture s = fallback raw s) /\
  (ollama_reply env self prompt = NoReply ->
   try_block env self prompt = (VStr "", Raise RequestException)) /\
  (forall body, ollama_reply env self prompt = Reply false body ->
   try_block env self prompt = (VStr "", Raise HTTPError)) /\
  (ollama_reply env self prompt = Reply true None ->
   try_block env self prompt = (VStr "", Raise JSONDecodeError)) /\
  (forall d, ollama_reply env self prompt = Reply true (Some (VDict d)) ->
   dict_get d "response" = None ->
   try_block env self prompt = (VStr "", Raise ValueError)) /\
  (forall d text e,
      ollama_reply env self prompt = Reply true (Some (VDict d)) ->
      dict_get d "response" = Some (VStr text) ->
      json_loads env (cleaned env text) = Raise e ->
      try_block env self prompt = (VStr text, Raise e)) /\
  (forall raw : value,
      let r := fst (fallback raw s) in
      in_unit (performance r) /\ in_unit (novelty r) /\ in_unit (complexity r) /\
      performance r = fst (random s) /\
      novelty r = fst (random (snd (random s))) /\
      complexity r = fst (random (snd (random (snd (random s))))) /\
      raw_response r = (if truthy raw then raw else VStr "fallback")).
Proof.
  cbv zeta. split; [|split; [|split; [|split; [|split; [|split; [|split]]]]]].
  - intros Hoff. unfold evaluate. rewrite Hoff. split; [reflexivity|].
    now destruct (fallback_spec (VStr "") s) as (_ & _ & _ & _ & _ & _ & _ & ->).
  - intros raw e Hon Ht. unfold evaluate. now rewrite Hon, Ht.
  - intros Hr. unfold try_block, call_llm. now rewrite Hr.
  - intros body Hr. unfold try_block, call_llm. now rewrite Hr.
  - intros Hr. unfold try_block, call_llm. now rewrite Hr.
  - intros d Hr Hd. unfold try_block, call_llm. rewrite Hr.
    cbn [response_of]. now rewrite Hd.
  - intros d text e Hr Hd Hj. unfold try_block, call_llm. rewrite Hr.
    cbn [response_of]. rewrite Hd. cbn [parse_scores]. now rewrite Hj.
  - intros raw.
    destruct (fallback_spec raw s) as (E1 & E2 & E3 & _ & U1 & U2 & U3 & Er).
    cbv zeta in *. auto 10.
Qed.

End WithRandom.

Lemma constant_random_unit : @RandomInUnit unit (Evolve.constant_random 0.05 5 0.5).
Proof. intros s. split; reflexivity. Qed.

(** A reply in prose: the three scores are the draws and the diagnostic
    is the text received. *)
Lemma evaluate_degrades_to_fallback_witness :
  @evaluate unit (Evolve.constant_random 0.05 5 0.5) prose_environment
    (mkArchitectureEvaluator (VStr "llama3") (VBool true)) Database.baseline tt
  = (mkEvaluationResult 0.5 0.5 0.5 (VStr "I cannot score this."), tt).
Proof.
  pose proof (@evaluate_degrades_to_fallback unit (Evolve.constant_random 0.05 5 0.5)
                constant_random_unit prose_environment
                (mkArchitectureEvaluator (VStr "llama3") (VBool true))
                Database.baseline tt) as (_ & Hfail & _).
  rewrite (Hfail (VStr "I cannot score this.") JSONDecodeError eq_refl eq_refl).
  reflexivity.
Defined.

End EvaluateFacts.

(** ** The cycle *)

Module PipelineFacts.
Import Py Database Evolve Pipeline PyFloat PyFloatFacts PyFacts.
Import DatabaseFacts AnalyzeFacts EvolveFacts.

(** Selection pressure. A report whose composite score is a number
    strictly above every stored score becomes, once saved, the record
    that [sample_parent] returns. *)
Theorem saved_best_is_next_parent (data : history) (report : Analyze.AnalysisReport)
    (top : ext) :
  scaled (Analyze.composite_score report) = Some top ->
  (forall e, e ∈ data -> exists re, rank e = Some re /\ ext_ltb re top = true) ->
  sample_parent (save_result report data)
  = Ok (VDict (Analyze.architecture report)).
Proof.
  intros Htop Hlow. unfold save_result.
  assert (Hrank : rank (entry_of report) = Some top) by exact Htop.
  destruct (sample_parent_first_max (data ++ [entry_of report]))
    as (i & b & [Hb Hmax] & Hs).
  { now destruct data. }
  { intros e [He | He]%elem_of_app.
    - destruct (Hlow e He) as (re & -> & _). eauto.
    - apply list_elem_of_singleton in He as ->. eauto. }
  rewrite Hs.
  destruct (decide (i < length data)%nat) as [Hlt | Hge].
  - exfalso. rewrite lookup_app_l in Hb by exact Hlt.
    destruct (Hlow b) as (rb & Rb & Hbt).
    { apply list_elem_of_lookup. eauto. }
    destruct (Hmax (length data) (entry_of report) top rb) as [Hle _]; auto.
    { now rewrite list_lookup_middle. }
    eapply ext_ltb_not_leb; eauto.
  - pose proof (lookup_lt_Some _ _ _ Hb) as Hi. rewrite length_app in Hi.
    cbn [length] in Hi. assert (i = length data) as -> by lia.
    rewrite list_lookup_middle in Hb by reflexivity. injection Hb as <-.
    reflexivity.
Qed.

(** A stored score of 0.4 and a new report of composite score 0.75. *)
Lemma saved_best_is_next_parent_witness :
  sample_parent
    (save_result
       (Analyze.mkAnalysisReport [("id", VStr "arch_0000002")]
          (mkEvaluationResult 1 0.5 0 (VStr "fallback")) 0.75 EmptyString)
       [[("architecture", VDict [("id", VStr "arch_0000001")]);
         ("composite_score", VFloat 0.4)]])
  = Ok (VDict [("id", VStr "arch_0000002")]).
Proof.
  eapply (saved_best_is_next_parent
            [[("architecture", VDict [("id", VStr "arch_0000001")]);
              ("composite_score", VFloat 0.4)]]
            (Analyze.mkAnalysisReport [("id", VStr "arch_0000002")]
               (mkEvaluationResult 1 0.5 0 (VStr "fallback")) 0.75 EmptyString)).
  - vm_compute. reflexivity.
  - intros e He. apply list_elem_of_singleton in He as ->.
    eexists. split; [vm_compute; reflexivity|]. vm_compute. reflexivity.
Defined.

Section WithWorld.

Context {G : Type} `{RandomModule G}.
Hypothesis gauss_usable : GaussUsable G.
Variable env : Evaluate.environment.
Variable format_2f : float -> string.
Variable py_str : value -> string.

(** One cycle. Whenever the store yields a dict as the parent (as it
    does when it is empty), [run_cycle] returns a report and leaves the
    history longer by exactly the record of that report; the report's
    architecture has its three parameters in range and a drawn id, and
    its composite score lies in [[0, 1]]. *)
Theorem run_cycle_appends_one_record (self : ArchitecturePipeline)
    (data : history) (s : G) (d : dict) :
  sample_parent data = Ok (VDict d) ->
  exists (report : Analyze.AnalysisReport) (s' : G),
    run_cycle env format_2f py_str self data s
    = Ok (report, (data ++ [entry_of report], s')) /\
    (forall (key : string) (low high : Z),
        In (key, (low, high)) numeric_keys ->
        exists z : Z,
          dict_get (Analyze.architecture report) key = Some (VInt z) /\
          low <= z <= high) /\
    (exists r : Z,
        dict_get (Analyze.architecture report) "id"
        = Some (VStr ("arch_" +:+ format_07d r))) /\
    (0 <=? Analyze.composite_score report)%float = true /\
    (Analyze.composite_score report <=? 1)%float = true.
Proof.
  intros Hs. unfold run_cycle. rewrite Hs. cbn [rbind].
  destruct (evolve_spec gauss_usable (evolver self) [d] s 0%nat d eq_refl)
    as (z1 & z2 & z3 & r & s3 & s1 & Hev & _ & HR & _).
  set (dc := dict_set
               (dict_set (dict_set (dict_set d "hidden_size" (VInt z1))
                            "num_layers" (VInt z2))
                  "num_heads" (VInt z3))
               "id" (VStr ("arch_" +:+ format_07d r))) in *.
  destruct (Evaluate.evaluate env (evaluator self) dc s1) as [evaluation s'] eqn:E.
  exists (Analyze.analyze format_2f py_str dc evaluation), s'. split.
  { match goal with
    | |- match ?e with Ok _ => _ | Raise _ => _ end = _ =>
        replace e with (Ok (1%nat, mkWorld [d; dc] s1) : result (ref * world G))
          by (symmetry; exact Hev)
    end.
    cbn [heap rng]. change ([d; dc] !! 1%nat) with (Some dc).
    cbv beta iota. now rewrite E. }
  cbn [Analyze.analyze Analyze.architecture Analyze.composite_score].
  split; [intros key low high Hk; now apply evolved_in_range|].
  split; [exists r; apply dict_get_set_eq|].
  apply clamp_unit_bounds.
Qed.

End WithWorld.

(** The first cycle, on the empty store, with the server answering in
    prose. *)
Lemma run_cycle_appends_one_record_witness :
  exists (report : Analyze.AnalysisReport) (s' : unit),
    @run_cycle unit (constant_random 0.05 5 0.5) Evaluate.prose_environment
      (fun _ => EmptyString) (fun _ => EmptyString)
      (init []) [] tt
    = Ok (report, ([] ++ [entry_of report], s')) /\
    (forall (key : string) (low high : Z),
        In (key, (low, high)) numeric_keys ->
        exists z : Z,
          dict_get (Analyze.architecture report) key = Some (VInt z) /\
          low <= z <= high) /\
    (exists r : Z,
        dict_get (Analyze.architecture report) "id"
        = Some (VStr ("arch_" +:+ format_07d r))) /\
    (0 <=? Analyze.composite_score report)%float = true /\
    (Analyze.composite_score report <=? 1)%float = true.
Proof.
  exact (@run_cycle_appends_one_record unit (constant_random 0.05 5 0.5)
           constant_gauss_usable Evaluate.prose_environment
           (fun _ => EmptyString) (fun _ => EmptyString)
           (init []) [] tt baseline eq_refl).
Defined.

End PipelineFacts.

(** ** The store under repeated use *)

Module StoreFacts.
Import Py Database Main PyFloat PyFloatFacts DatabaseFacts.

(** The loop of [max] on a list with one more item at its end. *)
Lemma max_loop_snoc (rest : list dict) (m item : dict) :
  max_loop m (key m) (rest ++ [item])
  = rbind (max_loop m (key m) rest) (fun b =>
      rbind (py_gt (key item) (key b)) (fun greater =>
        Ok (if greater then item else b))).
Proof.
  revert m. induction rest as [ | x rest IH]; intros m; cbn [app max_loop rbind].
  - destruct (py_gt (key item) (key m)) as [[ | ] | ]; reflexivity.
  - destruct (py_gt (key x) (key m)) as [[ | ] | ]; cbn [rbind]; auto.
Qed.

Lemma ext_leb_trans_not_ltb (a b c : ext) :
  ext_leb a b = true -> ext_leb b c = true -> ext_ltb c a = false.
Proof. ext_order. Qed.

(** X3. Ties and lower scores keep the incumbent: saving a report whose
    composite score does not exceed the score of some stored record
    leaves the answer of [sample_parent] as it was. *)
Theorem lower_score_keeps_parent (data : history) (report : Analyze.AnalysisReport)
    (new : ext) :
  (forall e, e ∈ data -> is_Some (rank e)) ->
  scaled (Analyze.composite_score report) = Some new ->
  (exists e re, e ∈ data /\ rank e = Some re /\ ext_leb new re = true) ->
  sample_parent (save_result report data) = sample_parent data.
Proof.
  intros Hr Hnew (e & re & He & Re & Hle).
  destruct data as [ | x rest]; [now apply elem_of_nil in He|].
  destruct (max_loop_first_max rest [x] 0%nat x Hr) as (i & b & Hb & [Hib Hmax]).
  { split; [reflexivity|]. intros [ | j] e' re' rb Hj Re' Rb; [|discriminate].
    cbn in Hj. injection Hj as <-. rewrite Re' in Rb. injection Rb as <-.
    split; [apply ext_leb_refl | lia]. }
  assert (Hbin : b ∈ x :: rest) by (apply list_elem_of_lookup; eauto).
  destruct (Hr b Hbin) as [rb Rb].
  apply list_elem_of_lookup in He as [j Hj].
  destruct (Hmax j e re rb Hj Re Rb) as [Hreb _].
  assert (Rn : rank (entry_of report) = Some new) by exact Hnew.
  unfold save_result. cbn [app sample_parent max_by_key].
  rewrite max_loop_snoc. change ([x] ++ rest) with (x :: rest) in *.
  rewrite Hb. cbn [rbind]. rewrite (py_gt_rank _ _ new rb Rn Rb).
  cbn [rbind]. now rewrite (ext_leb_trans_not_ltb new re rb Hle Hreb).
Qed.

(** A stored 0.9 and a new report of the same composite score. *)
Lemma lower_score_keeps_parent_witness :
  sample_parent
    (save_result
       (Analyze.mkAnalysisReport [("id", VStr "arch_0000002")]
          (mkEvaluationResult 1 1 0 (VStr "fallback")) 0.9 EmptyString)
       [[("architecture", VDict [("id", VStr "arch_0000001")]);
         ("composite_score", VFloat 0.9)]])
  = sample_parent
      [[("architecture", VDict [("id", VStr "arch_0000001")]);
        ("composite_score", VFloat 0.9)]].
Proof.
  eapply (lower_score_keeps_parent
            [[("architecture", VDict [("id", VStr "arch_0000001")]);
              ("composite_score", VFloat 0.9)]]
            (Analyze.mkAnalysisReport [("id", VStr "arch_0000002")]
               (mkEvaluationResult 1 1 0 (VStr "fallback")) 0.9 EmptyString)).
  - intros e He. apply list_elem_of_singleton in He as ->.
    eexists. vm_compute. reflexivity.
  - vm_compute. reflexivity.
  - eexists. eexists. split; [apply list_elem_of_singleton; reflexivity|].
    split; [vm_compute; reflexivity|]. vm_compute. reflexivity.
Defined.

Lemma py_gt_unorderable_l (a b : value) : unorderable a -> py_gt a b = Raise TypeError.
Proof. destruct a; cbn; try contradiction; reflexivity. Qed.

Lemma py_gt_unorderable_r (a b : value) : unorderable b -> py_gt a b = Raise TypeError.
Proof. destruct b; cbn; try contradiction; destruct a; reflexivity. Qed.

Lemma py_gt_raises (a b : value) (e : exn) : py_gt a b = Raise e -> e = TypeError.
Proof.
  unfold py_gt. destruct (as_num a), (as_num b), a, b; congruence.
Qed.

Lemma max_loop_unorderable_item (rest : list dict) (m : dict) (k : value) :
  (exists x, x ∈ rest /\ unorderable (key x)) ->
  max_loop m k rest = Raise TypeError.
Proof.
  revert m k. induction rest as [ | item rest IH]; intros m k (x & Hx & Ux).
  - now apply elem_of_nil in Hx.
  - cbn [max_loop]. destruct (py_gt (key item) k) as [g | e] eqn:Hg; cbn [rbind].
    + apply elem_of_cons in Hx as [-> | Hx].
      * rewrite py_gt_unorderable_l in Hg by exact Ux. discriminate.
      * destruct g; apply IH; eauto.
    + f_equal. eapply py_gt_raises; eauto.
Qed.

(** X4. A record whose stored score is [null] or an object poisons the
    store: as soon as the history holds a second record, [sample_parent]
    raises a [TypeError], wherever the record is and whatever the other
    scores are. A lone record is never compared, so it is returned
    whatever its score. *)
Theorem sample_parent_unorderable_score :
  (forall x : dict,
      sample_parent [x]
      = Ok (dict_get_default x "architecture" (VDict default_architecture))) /\
  (forall data : history,
      (2 <= length data)%nat ->
      (exists e v, e ∈ data /\ dict_get e "composite_score" = Some v /\ unorderable v) ->
      sample_parent data = Raise TypeError).
Proof.
  split; [reflexivity|].
  intros data Hlen (e & v & He & Hv & Uv).
  assert (Uk : unorderable (key e)).
  { unfold key, dict_get_default. now rewrite Hv. }
  destruct data as [ | x [ | y rest]]; cbn [length] in Hlen; try lia.
  cbn [sample_parent max_by_key].
  apply elem_of_cons in He as [-> | He].
  - cbn [max_loop]. now rewrite py_gt_unorderable_r.
  - rewrite max_loop_unorderable_item; [reflexivity | eauto].
Qed.

(** A scored record followed by one whose score is [null]. *)
Lemma sample_parent_unorderable_score_witness :
  sample_parent
    [[("architecture", VDict [("id", VStr "arch_0000001")]);
      ("composite_score", VFloat 0.5)];
     [("architecture", VDict [("id", VStr "arch_0000002")]);
      ("composite_score", VNone)]]
  = Raise TypeError.
Proof.
  apply (proj2 sample_parent_unorderable_score); [cbn [length]; lia|].
  exists [("architecture", VDict [("id", VStr "arch_0000002")]);
          ("composite_score", VNone)], VNone.
  split; [apply elem_of_cons; right; apply list_elem_of_singleton; reflexivity|].
  split; [reflexivity | exact I].
Defined.

End StoreFacts.

(** ** A NaN among the scores *)

Module AnalyzeNanFacts.
Import PyFloat PyFloatFacts FloatArithFacts AnalyzeFacts.

Lemma SFmul_nan_r (x : spec_float) : SFmul prec emax x S754_nan = S754_nan.
Proof. destruct x; reflexivity. Qed.

Lemma SFadd_nan_l (y : spec_float) : SFadd prec emax S754_nan y = S754_nan.
Proof. reflexivity. Qed.

Lemma SFadd_nan_r (x : spec_float) : SFadd prec emax x S754_nan = S754_nan.
Proof. destruct x; reflexivity. Qed.

Lemma SFsub_nan_l (y : spec_float) : SFsub prec emax S754_nan y = S754_nan.
Proof. reflexivity. Qed.

Lemma SFsub_nan_r (x : spec_float) : SFsub prec emax x S754_nan = S754_nan.
Proof. destruct x; reflexivity. Qed.

Lemma Prim2SF_nan (f : float) : is_nan f = true -> Prim2SF f = S754_nan.
Proof.
  rewrite is_nan_SF. destruct (Prim2SF f); try discriminate. reflexivity.
Qed.

(** A NaN in any of the three scores makes the weighted sum a NaN. *)
Lemma weighted_nan (ev : EvaluationResult) :
  is_nan (performance ev) = true \/ is_nan (novelty ev) = true \/
  is_nan (complexity ev) = true ->
  is_nan (Analyze.weighted ev) = true.
Proof.
  intros Hnan. unfold Analyze.weighted.
  rewrite is_nan_SF, sub_spec, add_spec, !mul_spec.
  unfold SF64sub, SF64add, SF64mul.
  destruct Hnan as [Hn | [Hn | Hn]]; rewrite (Prim2SF_nan _ Hn), SFmul_nan_r.
  - now rewrite SFadd_nan_l, SFsub_nan_l.
  - now rewrite SFadd_nan_r, SFsub_nan_l.
  - now rewrite SFsub_nan_r.
Qed.

Section Analyzer.

Variable format_2f : float -> string.
Variable py_str : Py.value -> string.

(** X5. A NaN among the three scores does not give a NaN composite
    score, nor the lowest one: [min(1.0, nan)] keeps [1.0], so the
    composite score is exactly 1.0, the highest there is. *)
Theorem analyze_nan_scores_top (arch : Py.dict) (ev : EvaluationResult) :
  is_nan (performance ev) = true \/ is_nan (novelty ev) = true \/
  is_nan (complexity ev) = true ->
  Analyze.composite_score (Analyze.analyze format_2f py_str arch ev) = 1%float.
Proof.
  intros Hnan. cbn [Analyze.analyze Analyze.composite_score].
  apply clamp_nan. destruct (scaled (Analyze.weighted ev)) as [a | ] eqn:E;
    [|reflexivity].
  assert (Hf : is_nan (Analyze.weighted ev) = false) by (apply is_nan_scaled; eauto).
  rewrite (weighted_nan ev Hnan) in Hf. discriminate.
Qed.

End Analyzer.

(** A model that answers a NaN performance. *)
Lemma analyze_nan_scores_top_witness :
  Analyze.composite_score
    (Analyze.analyze (fun _ => EmptyString) (fun _ => EmptyString)
       [("id", Py.VStr "arch_0000001")]
       (mkEvaluationResult nan 0.5 0.5 (Py.VStr "{}")))
  = 1%float.
Proof.
  apply (analyze_nan_scores_top (fun _ => EmptyString) (fun _ => EmptyString)
           [("id", Py.VStr "arch_0000001")]
           (mkEvaluationResult nan 0.5 0.5 (Py.VStr "{}"))).
  left. reflexivity.
Defined.

End AnalyzeNanFacts.

(** ** The loop of [main] *)

Module MainFacts.
Import Py Database Evolve Pipeline Main PyFloat PyFloatFacts PyFacts.
Import DatabaseFacts AnalyzeFacts EvolveFacts.

(** A double at or above 0 is a number. *)
Lemma leb_zero_number (c : float) : (0 <=? c)%float = true -> is_Some (scaled c).
Proof.
  intros H0. destruct (scaled c) as [a | ] eqn:E; [eauto|]. exfalso.
  unfold scaled in E. rewrite FloatAxioms.leb_spec in H0. unfold SFleb in H0.
  destruct (Prim2SF c); try discriminate.
Qed.

Lemma sound_history_nil : sound_history [].
Proof. intros e He. now apply elem_of_nil in He. Qed.

(** On a sound history the parent is a dict. *)
Lemma sound_sample_parent (data : history) :
  sound_history data -> exists d, sample_parent data = Ok (VDict d).
Proof.
  intros Hs. destruct data as [ | x rest]; [eexists; reflexivity|].
  destruct (sample_parent_first_max (x :: rest)) as (i & b & [Hb _] & Hp);
    [discriminate | intros e He; now apply Hs |].
  destruct (Hs b) as [_ [d Hd]]; [apply list_elem_of_lookup; eauto|].
  exists d. rewrite Hp. unfold dict_get_default. now rewrite Hd.
Qed.

(** The record of a report whose composite score is at or above 0 keeps
    a history sound. *)
Lemma sound_history_snoc (data : history) (report : Analyze.AnalysisReport) :
  sound_history data ->
  (0 <=? Analyze.composite_score report)%float = true ->
  sound_history (data ++ [entry_of report]).
Proof.
  intros Hs H0 e [He | He]%elem_of_app; [now apply Hs|].
  apply list_elem_of_singleton in He as ->. split.
  - exact (leb_zero_number _ H0).
  - eexists. reflexivity.
Qed.

Section WithWorld.

Context {G : Type} `{RandomModule G}.
Hypothesis gauss_usable : GaussUsable G.
Variable env : Evaluate.environment.
Variable format_2f : float -> string.
Variable py_str : value -> string.

(** One cycle on a parent that is a dict. *)
Lemma run_cycle_ok (self : ArchitecturePipeline) (data : history) (s : G) (d : dict) :
  sample_parent data = Ok (VDict d) ->
  exists (report : Analyze.AnalysisReport) (s' : G),
    run_cycle env format_2f py_str self data s
    = Ok (report, (data ++ [entry_of report], s')) /\
    valid_report report.
Proof.
  intros Hs. unfold run_cycle. rewrite Hs. cbn [rbind].
  destruct (evolve_spec gauss_usable (evolver self) [d] s 0%nat d eq_refl)
    as (z1 & z2 & z3 & r & s3 & s1 & Hev & _ & HR & _).
  set (dc := dict_set
               (dict_set (dict_set (dict_set d "hidden_size" (VInt z1))
                            "num_layers" (VInt z2))
                  "num_heads" (VInt z3))
               "id" (VStr ("arch_" +:+ format_07d r))) in *.
  destruct (Evaluate.evaluate env (evaluator self) dc s1) as [evaluation s'] eqn:E.
  exists (Analyze.analyze format_2f py_str dc evaluation), s'. split.
  { match goal with
    | |- match ?e with Ok _ => _ | Raise _ => _ end = _ =>
        replace e with (Ok (1%nat, mkWorld [d; dc] s1) : result (ref * world G))
          by (symmetry; exact Hev)
    end.
    cbn [heap rng]. change ([d; dc] !! 1%nat) with (Some dc).
    cbv beta iota. now rewrite E. }
  split; [|apply clamp_unit_bounds].
  cbn [Analyze.analyze Analyze.architecture]. split.
  - intros key low high Hk. now apply evolved_in_range.
  - exists r. apply dict_get_set_eq.
Qed.

(** The loop, by induction on the number of turns. *)
Lemma run_cycles_spec (self : ArchitecturePipeline) (n : nat) :
  forall (data : history) (s : G),
    sound_history data ->
    exists (reports : list Analyze.AnalysisReport) (s' : G),
      run_cycles env format_2f py_str self n data s
      = Ok (reports, (data ++ map entry_of reports, s')) /\
      length reports = n /\
      Forall valid_report reports /\
      sound_history (data ++ map entry_of reports).
Proof.
  induction n as [ | n IH]; intros data s Hs.
  - exists [], s. cbn [run_cycles map]. rewrite app_nil_r. auto.
  - destruct (sound_sample_parent data Hs) as [d Hd].
    destruct (run_cycle_ok self data s d Hd) as (report & s1 & Hc & Hu).
    destruct (IH (data ++ [entry_of report]) s1) as (reports & s' & Hl & Hn & Hf & Hs').
    { apply sound_history_snoc; [exact Hs | apply Hu]. }
    clear IH.
    exists (report :: reports), s'. cbn [run_cycles map length].
    rewrite Hc. cbn [rbind]. rewrite Hl. cbn [rbind].
    rewrite <- app_assoc in Hs' |- *. cbn [app] in Hs' |- *. auto.
Qed.

(** X6. [main] never stops halfway. Started on a history as the pipeline
    writes it (the empty one included) with [num_cycles] an integer [n]
    (1 when [config.json] has none, no cycle for a negative one), it runs
    [n] cycles, none of which raises; the history it leaves is the old
    one followed by the records of the [n] reports it printed, in order;
    each report holds a configuration with its three parameters in range
    and a drawn id, and a composite score in [[0, 1]]; and the history
    left is again one the pipeline can be started on. *)
Theorem main_runs_every_cycle (config : dict) (data : history) (s : G) (n : nat) :
  range_count (dict_get_default config "num_cycles" (VInt 1)) = Ok n ->
  sound_history data ->
  exists (reports : list Analyze.AnalysisReport) (s' : G),
    main env format_2f py_str config data s
    = Ok (reports, (data ++ map entry_of reports, s')) /\
    length reports = n /\
    Forall valid_report reports /\
    sound_history (data ++ map entry_of reports).
Proof.
  intros Hn Hs. unfold main. rewrite Hn. cbn [rbind].
  apply run_cycles_spec. exact Hs.
Qed.

End WithWorld.

(** Three cycles from the empty store, the server answering in prose. *)
Lemma main_runs_every_cycle_witness :
  exists (reports : list Analyze.AnalysisReport) (s' : unit),
    @main unit (constant_random 0.05 5 0.5) Evaluate.prose_environment
      (fun _ => EmptyString) (fun _ => EmptyString)
      [("num_cycles", VInt 3)] [] tt
    = Ok (reports, ([] ++ map entry_of reports, s')) /\
    length reports = 3%nat /\
    Forall valid_report reports /\
    sound_history ([] ++ map entry_of reports).
Proof.
  exact (@main_runs_every_cycle unit (constant_random 0.05 5 0.5)
           constant_gauss_usable Evaluate.prose_environment
           (fun _ => EmptyString) (fun _ => EmptyString)
           [("num_cycles", VInt 3)] [] tt 3%nat eq_refl sound_history_nil).
Defined.

End MainFacts.

(** ** The proposer on integer parents, and its ids *)

Module MutationFacts.
Import Py Evolve Mutation PyFacts EvolveFacts.

Lemma py_clamp_int (low high x : Z) :
  num_int (py_max (NInt low) (py_min (NInt high) (NInt x)))
  = Ok (clamp_int low high x).
Proof.
  unfold py_max, py_min, num_gtb, clamp_int. cbn [num_ltb].
  destruct (Z.ltb_spec x high); cbn [num_ltb];
    match goal with |- context [?a <? ?b] => destruct (Z.ltb_spec a b) end;
    cbn [num_int]; f_equal; lia.
Qed.

Lemma int_parameter_set_ne (d : dict) (k k' : string) (w : value) (v : Z) :
  k <> k' -> int_parameter d k' v -> int_parameter (dict_set d k w) k' v.
Proof.
  intros Hk (x & Hx & Hn). exists x. now rewrite dict_get_set_ne.
Qed.

Section WithRandom.

Context {G : Type} `{RandomModule G}.

(** One turn of the loop on an integer entry: one draw, and the clamp of
    the sum. *)
Lemma mutate_int (self : ArchitectureEvolver) (c : ref) (h : list dict) (s : G)
    (d : dict) (key : string) (low high v n : Z) :
  h !! c = Some d ->
  int_parameter d key v ->
  noise_of (fst (gauss 0 (noise_scale self) s)) (high - low) = Ok n ->
  mutate self c (key, (low, high)) (mkWorld h s)
  = Ok (tt, mkWorld (<[c := dict_set d key (VInt (clamp_int low high (v + n)))]> h)
              (snd (gauss 0 (noise_scale self) s))).
Proof.
  intros Hc (x & Hx & Hn) Hnoise.
  unfold mutate, bind, deref. cbn [heap rng]. rewrite Hc, Hx, Hn.
  unfold draw. cbn [heap rng].
  destruct (gauss 0 (noise_scale self) s) as [g s'] eqn:Hg. cbn [fst snd] in *.
  unfold lift at 1. rewrite Hnoise. cbn [num_add]. unfold lift at 1.
  unfold lift. rewrite py_clamp_int. unfold setitem. cbn [heap rng].
  now rewrite Hc.
Qed.

(** X7. The proposer on a parent whose three parameters are integers, as
    every configuration the pipeline stores is: [evolve] makes three
    [gauss] draws and one [randint] draw, in this order, and each
    parameter becomes the clamp to its range of the parent's value plus
    the noise [int(g * (high - low))] of its draw; nothing else is
    changed but the id. *)
Theorem evolve_integer_parent (self : ArchitectureEvolver) (h : list dict) (s : G)
    (p : ref) (d : dict) (v1 v2 v3 n1 n2 n3 : Z) :
  let draw1 := gauss 0 (noise_scale self) s in
  let draw2 := gauss 0 (noise_scale self) (snd draw1) in
  let draw3 := gauss 0 (noise_scale self) (snd draw2) in
  let draw4 := randint 0 10000000 (snd draw3) in
  h !! p = Some d ->
  int_parameter d "hidden_size" v1 ->
  int_parameter d "num_layers" v2 ->
  int_parameter d "num_heads" v3 ->
  noise_of (fst draw1) (2048 - 32) = Ok n1 ->
  noise_of (fst draw2) (48 - 1) = Ok n2 ->
  noise_of (fst draw3) (32 - 1) = Ok n3 ->
  evolve self p (mkWorld h s)
  = Ok (length h,
        mkWorld
          (h ++ [dict_set
                   (dict_set
                      (dict_set
                         (dict_set d "hidden_size"
                            (VInt (clamp_int 32 2048 (v1 + n1))))
                         "num_layers" (VInt (clamp_int 1 48 (v2 + n2))))
                      "num_heads" (VInt (clamp_int 1 32 (v3 + n3))))
                   "id" (VStr ("arch_" +:+ format_07d (fst draw4)))])
          (snd draw4)).
Proof.
  intros draw1 draw2 draw3 draw4 Hp P1 P2 P3 N1 N2 N3.
  set (d1 := dict_set d "hidden_size" (VInt (clamp_int 32 2048 (v1 + n1)))).
  set (d2 := dict_set d1 "num_layers" (VInt (clamp_int 1 48 (v2 + n2)))).
  set (d3 := dict_set d2 "num_heads" (VInt (clamp_int 1 32 (v3 + n3)))).
  assert (Hcopy : deepcopy p (mkWorld h s) = Ok (length h, mkWorld (h ++ [d]) s)).
  { unfold deepcopy. cbn [heap rng]. now rewrite Hp. }
  pose proof (mutate_int self (length h) (h ++ [d]) s d "hidden_size" 32 2048 v1 n1
                (list_lookup_middle _ _ _ _ eq_refl) P1 N1) as E1.
  rewrite insert_last in E1. fold d1 draw1 in E1.
  pose proof (mutate_int self (length h) (h ++ [d1]) (snd draw1) d1 "num_layers"
                1 48 v2 n2 (list_lookup_middle _ _ _ _ eq_refl)
                (int_parameter_set_ne d "hidden_size" "num_layers" _ v2
                   ltac:(discriminate) P2) N2) as E2.
  rewrite insert_last in E2. fold d2 draw2 in E2.
  pose proof (mutate_int self (length h) (h ++ [d2]) (snd draw2) d2 "num_heads"
                1 32 v3 n3 (list_lookup_middle _ _ _ _ eq_refl)
                (int_parameter_set_ne d1 "num_layers" "num_heads" _ v3
                   ltac:(discriminate)
                   (int_parameter_set_ne d "hidden_size" "num_heads" _ v3
                      ltac:(discriminate) P3)) N3) as E3.
  rewrite insert_last in E3. fold d3 draw3 in E3.
  assert (Hloop : for_each numeric_keys (mutate self (length h))
                    (mkWorld (h ++ [d]) s)
                  = Ok (tt, mkWorld (h ++ [d3]) (snd draw3))).
  { cbn [for_each numeric_keys].
    rewrite (bind_ok _ _ _ _ _ E1), (bind_ok _ _ _ _ _ E2), (bind_ok _ _ _ _ _ E3).
    reflexivity. }
  unfold evolve. rewrite (bind_ok _ _ _ _ _ Hcopy), (bind_ok _ _ _ _ _ Hloop).
  unfold bind, draw, setitem, ret. cbn [heap rng]. fold draw4.
  destruct draw4 as [r s']. cbn [heap rng fst snd].
  rewrite list_lookup_middle by reflexivity. now rewrite insert_last.
Qed.

End WithRandom.

(** The baseline with the constant draws 0.05 and 5: the noises are
    [int(100.8)], [int(2.35)] and [int(1.55)]. *)
Lemma evolve_integer_parent_witness :
  @evolve unit (constant_random 0.05 5 0.5) default_evolver 0%nat
    (mkWorld [Database.baseline] tt)
  = Ok (1%nat,
        mkWorld
          [Database.baseline;
           [("id", VStr "arch_0000005"); ("hidden_size", VInt 612);
            ("num_layers", VInt 8); ("num_heads", VInt 9)]] tt).
Proof.
  pose proof (@evolve_integer_parent unit (constant_random 0.05 5 0.5)
                default_evolver [Database.baseline] tt 0%nat Database.baseline
                512 6 8 100 2 1 eq_refl
                (ex_intro _ (VInt 512) (conj eq_refl eq_refl))
                (ex_intro _ (VInt 6) (conj eq_refl eq_refl))
                (ex_intro _ (VInt 8) (conj eq_refl eq_refl))
                ltac:(vm_compute; reflexivity) ltac:(vm_compute; reflexivity)
                ltac:(vm_compute; reflexivity)) as E.
  rewrite E. vm_compute. reflexivity.
Defined.

(** *** The id of line 65 *)

Lemma length_zeros (n : nat) (s : string) :
  String.length (zeros n s) = (n + String.length s)%nat.
Proof. induction n as [ | n IH]; cbn [zeros String.length Nat.add]; congruence. Qed.

Lemma pretty_N_go_length (k : nat) :
  forall (x : N) (s : string),
    (x < 10 ^ N.of_nat k)%N ->
    (String.length (pretty_N_go x s) <= k + String.length s)%nat.
Proof.
  induction k as [ | k IH]; intros x s Hx.
  - assert (x = 0%N) as -> by (cbn in Hx; lia). rewrite pretty_N_go_0. lia.
  - destruct (decide (x = 0%N)) as [-> | Hx0]; [rewrite pretty_N_go_0; lia|].
    rewrite pretty_N_go_step by lia.
    etransitivity; [apply IH | cbn [String.length]; lia].
    apply N.Div0.div_lt_upper_bound.
    rewrite Nat2N.inj_succ, N.pow_succ_r' in Hx. exact Hx.
Qed.

Lemma pretty_N_length (k : nat) (x : N) :
  (0 < k)%nat -> (x < 10 ^ N.of_nat k)%N -> (String.length (pretty x) <= k)%nat.
Proof.
  intros Hk Hx. unfold pretty, pretty_N.
  destruct (decide (x = 0%N)); [cbn; lia|].
  pose proof (pretty_N_go_length k x "" Hx) as Hl. cbn [String.length] in Hl. lia.
Qed.

Lemma pretty_N_char_nonzero (x : N) :
  (0 < x < 10)%N -> pretty_N_char x <> "0"%char.
Proof.
  intros Hx.
  assert (x = 1 \/ x = 2 \/ x = 3 \/ x = 4 \/ x = 5 \/ x = 6 \/ x = 7 \/ x = 8
          \/ x = 9)%N as Hc by lia.
  repeat (destruct Hc as [-> | Hc]; [discriminate|]). subst x. discriminate.
Qed.

Lemma pretty_N_go_head (x : N) :
  forall s : string,
    (0 < x)%N -> exists c t, pretty_N_go x s = String c t /\ c <> "0"%char.
Proof.
  induction (N.lt_wf_0 x) as [x _ IH]. intros s Hx.
  rewrite pretty_N_go_step by exact Hx.
  destruct (decide (x `div` 10 = 0)%N) as [Hd | Hd].
  - rewrite Hd, pretty_N_go_0. eexists. eexists. split; [reflexivity|].
    apply pretty_N_char_nonzero. apply N.div_small_iff in Hd; [|lia].
    rewrite N.mod_small by exact Hd. lia.
  - apply IH; [apply N.div_lt; lia | now apply N.neq_0_lt_0].
Qed.

Lemma pretty_N_canonical (x : N) : canonical (pretty x).
Proof.
  unfold pretty, pretty_N. destruct (decide (x = 0%N)); [now left|].
  right. apply pretty_N_go_head. lia.
Qed.

Lemma zeros_canonical_nil (m : nat) (t : string) :
  canonical t -> zeros m t <> ""%string.
Proof.
  intros Ht. destruct m; cbn [zeros]; [|discriminate].
  destruct Ht as [-> | (c & u & -> & _)]; discriminate.
Qed.

Lemma canonical_zeros (m : nat) (s t : string) :
  canonical s -> canonical t -> s = zeros m t -> s = t.
Proof.
  intros Hs Ht E. destruct m as [ | m]; [exact E|]. exfalso.
  cbn [zeros] in E. destruct Hs as [-> | (c & u & -> & Hc)].
  - injection E as E. symmetry in E. now apply zeros_canonical_nil in E.
  - injection E as -> _. congruence.
Qed.

Lemma zeros_inj (n m : nat) (s t : string) :
  canonical s -> canonical t -> zeros n s = zeros m t -> s = t.
Proof.
  intros Hs Ht. revert m. induction n as [ | n IH]; intros m E.
  - now apply (canonical_zeros m).
  - destruct m as [ | m].
    + symmetry. now apply (canonical_zeros (S n)).
    + cbn [zeros] in E. injection E as E. now apply (IH m).
Qed.

(** X8. The id space of line 65 is the draws themselves: two draws of
    [randint(0, 10_000_000)] give the same id only when they are the same
    number, and the id has 12 characters, ['arch_'] and seven digits, for
    every draw below the upper bound (which [randint] includes, and whose
    id has eight digits). *)
Theorem drawn_ids_distinct (a b : Z) :
  0 <= a -> 0 <= b ->
  (("arch_" +:+ format_07d a = "arch_" +:+ format_07d b)%string <-> a = b) /\
  (a < 10000000 -> String.length ("arch_" +:+ format_07d a) = 12%nat) /\
  String.length ("arch_" +:+ format_07d 10000000) = 13%nat.
Proof.
  intros Ha Hb. split; [|split].
  - split; [|now intros ->]. intros E. cbn in E. injection E as E.
    unfold format_07d in E.
    destruct (Z.ltb_spec a 0), (Z.ltb_spec b 0); try lia.
    unfold zfill in E. apply zeros_inj in E; try apply pretty_N_canonical.
    apply (inj pretty) in E. lia.
  - intros Hlt.
    change (String.length ("arch_" +:+ format_07d a))
      with (5 + String.length (format_07d a))%nat.
    unfold format_07d. destruct (Z.ltb_spec a 0); try lia.
    unfold zfill. rewrite length_zeros.
    pose proof (pretty_N_length 7 (Z.to_N a) ltac:(lia) ltac:(cbn; lia)). lia.
  - vm_compute. reflexivity.
Qed.

Lemma drawn_ids_distinct_witness :
  (("arch_" +:+ format_07d 5 = "arch_" +:+ format_07d 5000000)%string
   <-> 5 = 5000000) /\
  (5 < 10000000 -> String.length ("arch_" +:+ format_07d 5) = 12%nat) /\
  String.length ("arch_" +:+ format_07d 10000000) = 13%nat.
Proof.
  apply (drawn_ids_distinct 5 5000000); lia.
Defined.

End MutationFacts.

(** ** More on the retrieval service *)

Module QueryFacts.
Import Rag Question.

Lemma filter_sublist {A : Type} (f : A -> bool) (l : list A) :
  List.filter f l `sublist_of` l.
Proof.
  induction l as [ | x l IH]; cbn [List.filter]; [constructor|].
  destruct (f x); now constructor.
Qed.

Lemma slice_to_sublist {A : Type} (l : list A) (k : Z) : slice_to l k `sublist_of` l.
Proof. unfold slice_to. destruct (0 <=? k); apply sublist_take. Qed.

(** X10. Whatever the result count is (a negative one included, which
    drops sentences from the end), [query] returns sentences of the
    corpus in corpus order, none more often than the corpus holds it;
    and as soon as one sentence matches the question, every sentence
    returned matches it. *)
Theorem query_is_ordered_selection (self : RAGService) (question : string) (top_k : Z) :
  query self question top_k `sublist_of` corpus self /\
  ((exists s, In s (corpus self) /\ matches (PyStr.lower question) s = true) ->
   forall s, In s (query self question top_k) ->
     matches (PyStr.lower question) s = true).
Proof.
  unfold query.
  pose proof (filter_sublist (matches (PyStr.lower question)) (corpus self)) as Hf.
  destruct (List.filter (matches (PyStr.lower question)) (corpus self))
    as [ | x found] eqn:E.
  - split; [apply slice_to_sublist|].
    intros (s & Hs & Hm). exfalso.
    assert (Hin : In s (List.filter (matches (PyStr.lower question)) (corpus self)))
      by (apply List.filter_In; auto).
    rewrite E in Hin. exact Hin.
  - split; [etransitivity; [apply slice_to_sublist | exact Hf]|].
    intros _ s Hs.
    assert (Hin : In s (x :: found)).
    { apply list_elem_of_In. eapply elem_of_sublist; [|apply slice_to_sublist].
      apply list_elem_of_In. exact Hs. }
    rewrite <- E in Hin. now apply List.filter_In in Hin.
Qed.

(** X11. A service built by the constructor always answers: whatever
    corpus it was given ([None] and the empty list included), whatever
    the question, [query] returns at least one sentence for every result
    count of 1 or more. *)
Theorem query_after_init_answers (c : option (list string)) (question : string)
    (top_k : Z) :
  1 <= top_k -> query (init c) question top_k <> [].
Proof.
  intros Hk. unfold query.
  assert (Hc : corpus (init c) <> []) by (destruct c as [[ | s l] | ]; discriminate).
  assert (Hpos : exists n, Z.to_nat top_k = S n) by (exists (Z.to_nat (top_k - 1)); lia).
  destruct Hpos as [n Hn].
  destruct (List.filter (matches (PyStr.lower question)) (corpus (init c)))
    as [ | x found].
  - rewrite RagFacts.slice_to_nonneg by lia. rewrite Hn.
    destruct (corpus (init c)); [congruence | discriminate].
  - rewrite RagFacts.slice_to_nonneg by lia. rewrite Hn. discriminate.
Qed.

Lemma query_after_init_answers_witness :
  query (init (Some [])) "" 1 <> [].
Proof.
  apply (query_after_init_answers (Some []) "" 1). lia.
Defined.

Lemma lower_char_space (c : ascii) : PyStr.is_space c = true -> PyStr.lower_char c = c.
Proof.
  unfold PyStr.is_space, PyStr.lower_char. intros Hs.
  destruct ((65 <=? N_of_ascii c)%N && (N_of_ascii c <=? 90)%N) eqn:E; [|reflexivity].
  exfalso. apply andb_true_iff in E as [E1 E2].
  apply N.leb_le in E1, E2.
  apply orb_true_iff in Hs as [Hs | Hs]; apply andb_true_iff in Hs as [H1 H2];
    apply N.leb_le in H1, H2; lia.
Qed.

Lemma split_blank (s : string) :
  blank s = true -> PyStr.split_go EmptyString (PyStr.lower s) = [].
Proof.
  induction s as [ | c s IH]; cbn [blank PyStr.lower PyStr.split_go]; [reflexivity|].
  intros [Hc Hs]%andb_true_iff. rewrite (lower_char_space c Hc), Hc. auto.
Qed.

Lemma filter_none {A : Type} (f : A -> bool) (l : list A) :
  (forall x, f x = false) -> List.filter f l = [].
Proof.
  intros Hf. induction l as [ | x l IH]; cbn [List.filter]; [reflexivity|].
  now rewrite Hf.
Qed.

(** X12. A question without a word, empty or made of spaces only,
    matches nothing, so it is answered with the head of the corpus. *)
Theorem query_blank_question (self : RAGService) (question : string) (top_k : Z) :
  blank question = true ->
  query self question top_k = slice_to (corpus self) top_k.
Proof.
  intros Hb. unfold query. rewrite filter_none; [reflexivity|].
  intros s. unfold matches, PyStr.split. now rewrite (split_blank question Hb).
Qed.

Lemma query_blank_question_witness :
  query (init None) "   " 2 = slice_to (corpus (init None)) 2.
Proof.
  apply (query_blank_question (init None) "   " 2). reflexivity.
Defined.




End QueryFacts.

(** ** The scorer when the model answers *)

Module ScoringFacts.
Import Py Evaluate Scoring.

Section WithRandom.

Context {G : Type} `{RandomModule G}.

(** X9. When the model answers, its scores are taken as they are. With
    the flag on, a reply whose ['response'] is a text that decodes to a
    JSON object gives the three scores [float(metrics.get(k, 0.0))], so
    0.0 for a score the object leaves out, and whatever number the object
    holds otherwise, inside [[0, 1]] or not; the diagnostic is the text
    as received, before any stripping; and no random draw is made: the
    generator is left as it was. *)
Theorem evaluate_uses_reply_scores (env : environment) (self : ArchitectureEvaluator)
    (architecture d m : dict) (text : string) (p n c : float) (s : G) :
  truthy (use_local self) = true ->
  ollama_reply env self (prompt_of env architecture) = Reply true (Some (VDict d)) ->
  dict_get d "response" = Some (VStr text) ->
  json_loads env (cleaned env text) = Ok (VDict m) ->
  py_float env (dict_get_default m "performance" (VFloat 0)) = Ok p ->
  py_float env (dict_get_default m "novelty" (VFloat 0)) = Ok n ->
  py_float env (dict_get_default m "complexity" (VFloat 0)) = Ok c ->
  evaluate env self architecture s = (mkEvaluationResult p n c (VStr text), s) /\
  (dict_get m "performance" = None -> p = 0%float) /\
  (dict_get m "novelty" = None -> n = 0%float) /\
  (dict_get m "complexity" = None -> c = 0%float) /\
  (forall f, dict_get m "performance" = Some (VFloat f) -> p = f) /\
  (forall f, dict_get m "novelty" = Some (VFloat f) -> n = f) /\
  (forall f, dict_get m "complexity" = Some (VFloat f) -> c = f).
Proof.
  intros Hon Hr Hd Hj Hp Hn Hc. split.
  - unfold evaluate, try_block, call_llm. rewrite Hon, Hr.
    cbn [response_of]. rewrite Hd. cbn [parse_scores]. rewrite Hj.
    cbn [rbind]. rewrite Hp. cbn [rbind]. rewrite Hn. cbn [rbind].
    rewrite Hc. reflexivity.
  - unfold dict_get_default in Hp, Hn, Hc.
    repeat split; intros; 
      match goal with E : dict_get m _ = _ |- _ => rewrite E in * end;
      cbn [py_float] in *; congruence.
Qed.

End WithRandom.

(** The model answers a performance of 0.8 and a novelty of 2, and no
    complexity. *)
Lemma evaluate_uses_reply_scores_witness :
  @evaluate unit (Evolve.constant_random 0.05 5 0.5) scoring_environment
    (mkArchitectureEvaluator (VStr "llama3") (VBool true)) Database.baseline tt
  = (mkEvaluationResult 0.8 2 0 (VStr reply_text), tt).
Proof.
  apply (@evaluate_uses_reply_scores unit (Evolve.constant_random 0.05 5 0.5)
           scoring_environment
           (mkArchitectureEvaluator (VStr "llama3") (VBool true)) Database.baseline
           [("response", VStr reply_text)]
           [("performance", VFloat 0.8); ("novelty", VInt 2)]
           reply_text 0.8 2 0 tt);
    reflexivity.
Defined.

End ScoringFacts.

(** ** The proposer without noise, and with a draw it cannot use *)

Module RepairFacts.
Import Py Evolve PyFloat PyFloatFacts FloatArithFacts PyFacts EvolveFacts.
Import AnalyzeNanFacts.

Lemma absent_set_ne (d : dict) (k k' : string) (w : value) :
  k <> k' -> absent_or_not_numeric d k' ->
  absent_or_not_numeric (dict_set d k w) k'.
Proof.
  intros Hk Ha. unfold absent_or_not_numeric in *. now rewrite dict_get_set_ne.
Qed.

(** The product of line 57 on a NaN and on an infinity. *)
Lemma noise_of_nan (g : float) (width : Z) (f : float) :
  PyFloat.of_int width = Some f ->
  is_nan g = true -> noise_of g width = Raise ValueError.
Proof.
  intros Hf Hg. unfold noise_of. cbn [num_mul num_float rbind]. rewrite Hf.
  cbn [rbind num_int].
  assert (Hn : Prim2SF (g * f) = S754_nan).
  { rewrite mul_spec. unfold SF64mul. now rewrite (Prim2SF_nan g Hg). }
  unfold trunc. rewrite Hn. cbn [SFtrunc]. rewrite is_nan_SF, Hn. reflexivity.
Qed.

Lemma noise_of_infinite (g : float) (width : Z) (f : float) (sf : bool)
    (mf : positive) (ef : Z) :
  PyFloat.of_int width = Some f ->
  Prim2SF f = S754_finite sf mf ef ->
  scaled g = Some PInf \/ scaled g = Some NInf ->
  noise_of g width = Raise OverflowError.
Proof.
  intros Hf Hp Hg. unfold noise_of. cbn [num_mul num_float rbind]. rewrite Hf.
  cbn [rbind num_int].
  assert (Hi : exists b, Prim2SF (g * f) = S754_infinity b).
  { rewrite mul_spec. unfold SF64mul. rewrite Hp. unfold scaled in Hg.
    destruct (Prim2SF g) as [b | b | | b m e]; cbn [SFscaled] in Hg;
      try (destruct Hg; discriminate).
    eexists. reflexivity. }
  destruct Hi as [b Hb].
  unfold trunc. rewrite Hb. cbn [SFtrunc]. rewrite is_nan_SF, Hb. reflexivity.
Qed.

Section WithRandom.

Context {G : Type} `{RandomModule G}.

(** One turn of the loop in the repair branch: no draw. *)
Lemma mutate_repair (self : ArchitectureEvolver) (c : ref) (h : list dict) (s : G)
    (d : dict) (key : string) (low high z : Z) :
  h !! c = Some d ->
  absent_or_not_numeric d key ->
  midpoint low high = Ok z ->
  mutate self c (key, (low, high)) (mkWorld h s)
  = Ok (tt, mkWorld (<[c := dict_set d key (VInt z)]> h) s).
Proof.
  intros Hc Ha Hz. unfold absent_or_not_numeric in Ha.
  unfold mutate, bind, deref. cbn [heap rng]. rewrite Hc.
  destruct (dict_get d key) as [v | ].
  - destruct (as_num v) as [n | ] eqn:Hn.
    + assert (is_Some (as_num v)) as Hs by eauto.
      apply as_num_isinstance in Hs. congruence.
    + unfold lift. rewrite Hz. unfold setitem. cbn [heap rng]. now rewrite Hc.
  - unfold lift. rewrite Hz. unfold setitem. cbn [heap rng]. now rewrite Hc.
Qed.

(** X14. The repair needs no noise. On a parent without a numeric
    [hidden_size], [num_layers] and [num_heads] (the empty dict, for one),
    [evolve] returns for every generator, with no condition on its
    [gauss] draws: it makes none. The candidate is the parent with
    1040, 24 and 16 assigned, and the id of the first draw of the
    generator, the [randint] one. *)
Theorem evolve_repair_draws_no_noise (self : ArchitectureEvolver) (h : list dict)
    (s : G) (p : ref) (d : dict) :
  h !! p = Some d ->
  absent_or_not_numeric d "hidden_size" ->
  absent_or_not_numeric d "num_layers" ->
  absent_or_not_numeric d "num_heads" ->
  evolve self p (mkWorld h s)
  = Ok (length h,
        mkWorld
          (h ++ [dict_set
                   (dict_set
                      (dict_set (dict_set d "hidden_size" (VInt 1040))
                         "num_layers" (VInt 24))
                      "num_heads" (VInt 16))
                   "id" (VStr ("arch_" +:+ format_07d (fst (randint 0 10000000 s))))])
          (snd (randint 0 10000000 s))).
Proof.
  intros Hp A1 A2 A3.
  set (d1 := dict_set d "hidden_size" (VInt 1040)).
  set (d2 := dict_set d1 "num_layers" (VInt 24)).
  set (d3 := dict_set d2 "num_heads" (VInt 16)).
  assert (Hcopy : deepcopy p (mkWorld h s) = Ok (length h, mkWorld (h ++ [d]) s)).
  { unfold deepcopy. cbn [heap rng]. now rewrite Hp. }
  pose proof (mutate_repair self (length h) (h ++ [d]) s d "hidden_size" 32 2048 1040
                (list_lookup_middle _ _ _ _ eq_refl) A1
                ltac:(vm_compute; reflexivity)) as E1.
  rewrite insert_last in E1. fold d1 in E1.
  pose proof (mutate_repair self (length h) (h ++ [d1]) s d1 "num_layers" 1 48 24
                (list_lookup_middle _ _ _ _ eq_refl)
                (absent_set_ne d "hidden_size" "num_layers" _ ltac:(discriminate) A2)
                ltac:(vm_compute; reflexivity)) as E2.
  rewrite insert_last in E2. fold d2 in E2.
  pose proof (mutate_repair self (length h) (h ++ [d2]) s d2 "num_heads" 1 32 16
                (list_lookup_middle _ _ _ _ eq_refl)
                (absent_set_ne d1 "num_layers" "num_heads" _ ltac:(discriminate)
                   (absent_set_ne d "hidden_size" "num_heads" _
                      ltac:(discriminate) A3))
                ltac:(vm_compute; reflexivity)) as E3.
  rewrite insert_last in E3. fold d3 in E3.
  assert (Hloop : for_each numeric_keys (mutate self (length h))
                    (mkWorld (h ++ [d]) s)
                  = Ok (tt, mkWorld (h ++ [d3]) s)).
  { cbn [for_each numeric_keys].
    rewrite (bind_ok _ _ _ _ _ E1), (bind_ok _ _ _ _ _ E2), (bind_ok _ _ _ _ _ E3).
    reflexivity. }
  unfold evolve. rewrite (bind_ok _ _ _ _ _ Hcopy), (bind_ok _ _ _ _ _ Hloop).
  unfold bind, draw, setitem, ret. cbn [heap rng].
  destruct (randint 0 10000000 s) as [r s']. cbn [heap rng fst snd].
  rewrite list_lookup_middle by reflexivity. now rewrite insert_last.
Qed.

(** X15. [evolve] is not total. On a parent whose [hidden_size] is a
    number, the first draw is scaled and truncated on line 57: a NaN
    draw raises a [ValueError] and an infinite one an [OverflowError]. *)
Theorem evolve_unusable_draw_raises (self : ArchitectureEvolver) (h : list dict)
    (s : G) (p : ref) (d : dict) (x : value) :
  h !! p = Some d ->
  dict_get d "hidden_size" = Some x ->
  isinstance_int_float x = true ->
  let g := fst (gauss 0 (noise_scale self) s) in
  (is_nan g = true -> evolve self p (mkWorld h s) = Raise ValueError) /\
  (scaled g = Some PInf \/ scaled g = Some NInf ->
   evolve self p (mkWorld h s) = Raise OverflowError).
Proof.
  intros Hp Hx Hnum g.
  apply as_num_isinstance in Hnum as [n Hn].
  assert (Hev : forall e, noise_of g (2048 - 32) = Raise e ->
                          evolve self p (mkWorld h s) = Raise e).
  { intros e He. unfold evolve, bind at 1, deepcopy. cbn [heap rng]. rewrite Hp.
    cbn [for_each numeric_keys]. unfold bind at 1, bind at 1.
    unfold mutate, bind at 1, deref. cbn [heap rng].
    rewrite list_lookup_middle by reflexivity. rewrite Hx, Hn.
    unfold bind at 1, draw. cbn [heap rng]. subst g.
    destruct (gauss 0 (noise_scale self) s) as [g0 s0]. cbn [fst] in He.
    unfold bind at 1, lift at 1. now rewrite He. }
  split; intros Hg; apply Hev.
  - eapply noise_of_nan; [vm_compute; reflexivity | exact Hg].
  - eapply noise_of_infinite; [vm_compute; reflexivity | vm_compute; reflexivity | exact Hg].
Qed.

End WithRandom.

(** The empty dict as the parent, with a generator whose [gauss] draws
    are NaN: they are never made. *)
Lemma evolve_repair_draws_no_noise_witness :
  @evolve unit (constant_random nan 7 0.5) default_evolver 0%nat (mkWorld [[]] tt)
  = Ok (1%nat,
        mkWorld
          [[];
           [("hidden_size", VInt 1040); ("num_layers", VInt 24);
            ("num_heads", VInt 16); ("id", VStr "arch_0000007")]] tt).
Proof.
  pose proof (@evolve_repair_draws_no_noise unit (constant_random nan 7 0.5)
                default_evolver [[]] tt 0%nat [] eq_refl I I I) as E.
  rewrite E. vm_compute. reflexivity.
Defined.

(** The baseline as the parent, with the same generator. *)
Lemma evolve_unusable_draw_raises_witness :
  @evolve unit (constant_random nan 7 0.5) default_evolver 0%nat
    (mkWorld [Database.baseline] tt)
  = Raise ValueError.
Proof.
  exact (proj1 (@evolve_unusable_draw_raises unit (constant_random nan 7 0.5)
                  default_evolver [Database.baseline] tt 0%nat Database.baseline
                  (VInt 512) eq_refl eq_refl eq_refl) eq_refl).
Defined.

End RepairFacts.
